(** * Green Supply Chain Dashboard: KPI, aggregation and scenario engine

    A shallow embedding of [models.py] (classes [DataProcessor] and
    [SimulationEngine]) and of [create_packaging_breakdown] and
    [calculate_environmental_impact] from the sustainability report page,
    with the properties of the engine stated and proved over it.

    Modelling choices.
    - Counts ([total_produced] ...) are int64 values, held in [Z]: sums,
      differences and products of int64 values wrap around modulo 2^64
      ([wrap]), as numpy computes them.
    - Python [float] and numpy [float64] are IEEE 754 binary64 numbers with
      round-to-nearest-even: the standard library's [spec_float] at
      precision 53, maximal exponent 1024.  Nothing is idealised to the
      reals: [100 * 1.15] is [114.99999999999999] here as in Python.
    - [Series.astype(int)] raises [IntCastingNaNError] on a column that
      holds a NaN or an infinity, and truncates toward zero otherwise.
    - A float column is summed as pandas sums it: [Series.sum] by numpy's
      pairwise reduction, [groupby(...).sum] by compensated summation.
    - A pandas [DataFrame] holding packaging records is the list of its rows;
      the frame [pd.DataFrame([])] built from no record has no column at all
      and is kept apart, since every column access on it raises [KeyError].
    - [groupby(...).agg({...}).reset_index()] yields one row per distinct key,
      keys in ascending order, holding the sums of exactly the columns named
      in the [agg] dictionary.
    - The objects a [SimulationEngine] works on live in a store of frames
      addressed by location, so that copies and in-place column assignments
      are told apart. *)

From Stdlib Require Import ZArith List Bool Lia String Sorted.
From Stdlib Require Import Floats.SpecFloat.
Import ListNotations.
Local Open Scope Z_scope.

(** ** Results and errors *)

(** What a call returns: a value, or one of the two exceptions the engine
    can raise, [KeyError] for a missing column and [IntCastingNaNError] for
    a conversion to integers of a column that holds a NaN or an infinity. *)
Inductive Result (A : Type) : Type :=
  | Ok (a : A)
  | KeyError (column : string)
  | IntCastingNaNError.

Arguments Ok {A} a.
Arguments KeyError {A} column.
Arguments IntCastingNaNError {A}.

Definition bind {A B : Type} (m : Result A) (k : A -> Result B) : Result B :=
  match m with
  | Ok a => k a
  | KeyError c => KeyError c
  | IntCastingNaNError => IntCastingNaNError
  end.

Notation "x <- m ;; k" := (bind m (fun x => k))
  (at level 61, m at next level, right associativity).

Fixpoint mapM {A B : Type} (f : A -> Result B) (l : list A)
  : Result (list B) :=
  match l with
  | [] => Ok []
  | a :: t => b <- f a ;; bs <- mapM f t ;; Ok (b :: bs)
  end.

(** Elementwise combination of two columns over the same index. *)
Fixpoint map2 {A B C : Type} (f : A -> B -> C) (xs : list A) (ys : list B)
  : list C :=
  match xs, ys with
  | x :: xs', y :: ys' => f x y :: map2 f xs' ys'
  | _, _ => []
  end.

(** ** IEEE 754 binary64 arithmetic *)

Module Binary64.

Definition prec : Z := 53.
Definition emax : Z := 1024.

Definition float : Type := spec_float.

Definition fadd : float -> float -> float := SFadd prec emax.
Definition fsub : float -> float -> float := SFsub prec emax.
Definition fmul : float -> float -> float := SFmul prec emax.
Definition fdiv : float -> float -> float := SFdiv prec emax.

(** Conversion of an integer to the nearest binary64 number, as numpy does
    when an int64 column meets a float operand or a true division. *)
Definition of_int (z : Z) : float := binary_normalize prec emax z 0 false.

(** The decimal literal [m / 10^k] of the source text, rounded once to the
    nearest binary64 number (both operands of the division are exact). *)
Definition dec (m : Z) (k : Z) : float := fdiv (of_int m) (of_int (10 ^ k)).

Definition int64_min : Z := - 2 ^ 63.
Definition int64_max : Z := 2 ^ 63 - 1.

(** The int64 value an integer result wraps around to. *)
Definition wrap (z : Z) : Z := (z - int64_min) mod 2 ^ 64 + int64_min.

(** Sum, difference and product of two int64 values. *)
Definition iadd (a b : Z) : Z := wrap (a + b).
Definition isub (a b : Z) : Z := wrap (a - b).
Definition imul (a b : Z) : Z := wrap (a * b).

Definition is_nan (x : float) : bool :=
  match x with S754_nan => true | _ => false end.

(** A number, as opposed to NaN and the infinities. *)
Definition is_finite (x : float) : bool :=
  match x with
  | S754_zero _ | S754_finite _ _ _ => true
  | S754_infinity _ | S754_nan => false
  end.

Definition valid (x : float) : bool := valid_binary prec emax x.

(** Python's [==] on floats. *)
Definition feqb : float -> float -> bool := SFeqb.

Definition zero : float := S754_zero false.
Definition one : float := of_int 1.

(** The conversion of one float64 entry to int64 by [astype(int)]:
    truncation toward zero; a NaN or an infinity makes the conversion
    raise; a number outside the int64 range gives the "integer indefinite"
    value [-2^63] of the x86-64 conversion. *)
Definition trunc (x : float) : Result Z :=
  match x with
  | S754_zero _ => Ok 0
  | S754_finite s m e =>
      let a := match e with
               | Zneg p => Z.shiftr (Zpos m) (Zpos p)
               | _ => Z.shiftl (Zpos m) e
               end in
      let z := if s then - a else a in
      Ok (if (int64_min <=? z) && (z <=? int64_max) then z else int64_min)
  | S754_infinity _ | S754_nan => IntCastingNaNError
  end.

(** [Series.astype(int)]: the column is converted as a whole, or the call
    raises. *)
Definition astype_int (xs : list float) : Result (list Z) := mapM trunc xs.

(** The sum of a list of integers, and [Series.sum()] of an int64 column,
    which wraps around. *)
Definition zsum (xs : list Z) : Z := fold_left Z.add xs 0.

Definition isum (xs : list Z) : Z := wrap (zsum xs).

(** numpy's sum of a float64 array ([np.add.reduce]).  Fewer than eight
    entries are added from left to right; up to 128 entries are added in
    eight interleaved partial sums that are then added in pairs, the
    entries left over one by one; longer arrays are cut in two near the
    middle, at a multiple of eight, and the sums of the halves added. *)
Definition add8 (r : list float) : float :=
  match r with
  | [r0; r1; r2; r3; r4; r5; r6; r7] =>
      fadd (fadd (fadd r0 r1) (fadd r2 r3)) (fadd (fadd r4 r5) (fadd r6 r7))
  | _ => fold_left fadd r zero
  end.

Fixpoint sum_blocks (fuel : nat) (r xs : list float) : float :=
  match fuel with
  | O => fold_left fadd xs (add8 r)
  | S fuel' =>
      if (8 <=? List.length xs)%nat
      then sum_blocks fuel' (map2 fadd r (firstn 8 xs)) (skipn 8 xs)
      else fold_left fadd xs (add8 r)
  end.

Fixpoint pairwise_sum (fuel : nat) (xs : list float) : float :=
  let n := List.length xs in
  if (n <? 8)%nat then fold_left fadd xs (S754_zero true)
  else if (n <=? 128)%nat then sum_blocks n (firstn 8 xs) (skipn 8 xs)
  else
    match fuel with
    | O => sum_blocks n (firstn 8 xs) (skipn 8 xs)
    | S fuel' =>
        let n2 := (n / 2 - (n / 2) mod 8)%nat in
        fadd (pairwise_sum fuel' (firstn n2 xs))
             (pairwise_sum fuel' (skipn n2 xs))
    end.

(** [Series.sum()] of a float64 column: NaN entries count as [0.0]
    ([skipna=True]) and the array is reduced by numpy from the initial
    value [0.0].  The fuel, the length of the column, is never used up
    (see [pairwise_sum_fuel]). *)
Definition fsum (xs : list float) : float :=
  fadd zero
       (pairwise_sum (List.length xs)
          (map (fun x => if is_nan x then zero else x) xs)).

(** The sum of a float64 column within one group of a [groupby]: NaN
    entries are skipped and the rest is added with Kahan's compensation,
    a compensation that is not a number being reset to 0. *)
Fixpoint kahan (xs : list float) (sumx compensation : float) : float :=
  match xs with
  | [] => sumx
  | val :: rest =>
      if is_nan val then kahan rest sumx compensation
      else
        let y := fsub val compensation in
        let t := fadd sumx y in
        let c := fsub (fsub t sumx) y in
        kahan rest t (if is_nan c then zero else c)
  end.

Definition gsum (xs : list float) : float := kahan xs zero zero.

End Binary64.
Import Binary64.

(** ** Data model ([models.py]) *)

(** [PackagingData]: one record per facility, packaging type and day.  The
    [date] is a timestamp. *)
Record PackagingData : Type := {
  date : Z;
  facility_id : string;
  facility_name : string;
  facility_type : string;
  packaging_type : string;
  total_produced : Z;
  total_returned : Z;
  total_reused : Z;
  total_recycled : Z;
  total_waste : Z;
  co2_saved : float;
  cost_savings : float;
  latitude : float;
  longitude : float
}.

Record KPIMetrics : Type := {
  reuse_rate : float;
  waste_rate : float;
  recovery_rate : float;
  co2_saved_total : float;
  cost_savings_total : float;
  efficiency_score : float
}.

(** The integer columns, the float columns that are summed, and the rate
    columns the aggregations add. *)
Inductive count_column : Type :=
  Produced | Returned | Reused | Recycled | Waste.

Inductive money_column : Type := Co2Saved | CostSavings.

Inductive rate_column : Type := ReuseRate | WasteRate | RecoveryRate.

Definition count_name (c : count_column) : string :=
  match c with
  | Produced => "total_produced"
  | Returned => "total_returned"
  | Reused => "total_reused"
  | Recycled => "total_recycled"
  | Waste => "total_waste"
  end.

Definition money_name (c : money_column) : string :=
  match c with Co2Saved => "co2_saved" | CostSavings => "cost_savings" end.

Definition count_of (c : count_column) (r : PackagingData) : Z :=
  match c with
  | Produced => total_produced r
  | Returned => total_returned r
  | Reused => total_reused r
  | Recycled => total_recycled r
  | Waste => total_waste r
  end.

Definition money_of (c : money_column) (r : PackagingData) : float :=
  match c with Co2Saved => co2_saved r | CostSavings => cost_savings r end.

Definition count_column_eqb (a b : count_column) : bool :=
  match a, b with
  | Produced, Produced | Returned, Returned | Reused, Reused
  | Recycled, Recycled | Waste, Waste => true
  | _, _ => false
  end.

Definition money_column_eqb (a b : money_column) : bool :=
  match a, b with
  | Co2Saved, Co2Saved | CostSavings, CostSavings => true
  | _, _ => false
  end.

Definition rate_column_eqb (a b : rate_column) : bool :=
  match a, b with
  | ReuseRate, ReuseRate | WasteRate, WasteRate
  | RecoveryRate, RecoveryRate => true
  | _, _ => false
  end.

(** In-place assignment of one cell, as a column assignment does row by
    row. *)
Definition set_count (c : count_column) (v : Z) (r : PackagingData)
  : PackagingData :=
  {| date := date r; facility_id := facility_id r;
     facility_name := facility_name r; facility_type := facility_type r;
     packaging_type := packaging_type r;
     total_produced := match c with Produced => v | _ => total_produced r end;
     total_returned := match c with Returned => v | _ => total_returned r end;
     total_reused := match c with Reused => v | _ => total_reused r end;
     total_recycled := match c with Recycled => v | _ => total_recycled r end;
     total_waste := match c with Waste => v | _ => total_waste r end;
     co2_saved := co2_saved r; cost_savings := cost_savings r;
     latitude := latitude r; longitude := longitude r |}.

Definition set_money (c : money_column) (v : float) (r : PackagingData)
  : PackagingData :=
  {| date := date r; facility_id := facility_id r;
     facility_name := facility_name r; facility_type := facility_type r;
     packaging_type := packaging_type r;
     total_produced := total_produced r; total_returned := total_returned r;
     total_reused := total_reused r; total_recycled := total_recycled r;
     total_waste := total_waste r;
     co2_saved := match c with Co2Saved => v | _ => co2_saved r end;
     cost_savings := match c with CostSavings => v | _ => cost_savings r end;
     latitude := latitude r; longitude := longitude r |}.

(** ** Frames and the errors of column access *)

(** A frame of packaging records.  [NoColumns] is [pd.DataFrame([])], the
    frame [_to_dataframe] builds from an empty list: it has no rows and no
    columns.  [Table rows] has the fourteen record columns, and possibly no
    rows (a filter that selects nothing). *)
Inductive DataFrame : Type :=
  | NoColumns
  | Table (rows : list PackagingData).

(** [df[name]] for an integer column and for a float column. *)
Definition counts (df : DataFrame) (c : count_column) : Result (list Z) :=
  match df with
  | NoColumns => KeyError (count_name c)
  | Table rows => Ok (map (count_of c) rows)
  end.

Definition moneys (df : DataFrame) (c : money_column) : Result (list float) :=
  match df with
  | NoColumns => KeyError (money_name c)
  | Table rows => Ok (map (money_of c) rows)
  end.

(** [df[name] = values]: the column is overwritten row by row. *)
Definition assign_counts (c : count_column) (values : list Z)
  (df : DataFrame) : DataFrame :=
  match df with
  | NoColumns => NoColumns
  | Table rows => Table (map2 (set_count c) values rows)
  end.

Definition assign_moneys (c : money_column) (values : list float)
  (df : DataFrame) : DataFrame :=
  match df with
  | NoColumns => NoColumns
  | Table rows => Table (map2 (set_money c) values rows)
  end.

(** ** Grouping and aggregation *)

Section GroupBy.
Context {K : Type} (cmp : K -> K -> comparison).

(** The distinct keys of a column in ascending order ([sort=True]). *)
Fixpoint insert_key (k : K) (ks : list K) : list K :=
  match ks with
  | [] => [k]
  | k' :: t =>
      match cmp k k' with
      | Lt => k :: ks
      | Eq => ks
      | Gt => k' :: insert_key k t
      end
  end.

Definition group_keys (ks : list K) : list K := fold_right insert_key [] ks.

Definition same_key (a b : K) : bool :=
  match cmp a b with Eq => true | _ => false end.

(** [df.groupby(key)]: each distinct key with its member rows, in the
    order of the frame. *)
Definition groupby (key : PackagingData -> K) (rows : list PackagingData)
  : list (K * list PackagingData) :=
  map (fun k => (k, filter (fun r => same_key (key r) k) rows))
      (group_keys (map key rows)).
End GroupBy.

(** A row of an aggregated frame: the group key (restored as columns by
    [reset_index]), the summed columns that the [agg] dictionary names, and
    the rate columns assigned afterwards. *)
Record AggRow (K : Type) : Type := {
  group_key : K;
  count_sums : list (count_column * Z);
  money_sums : list (money_column * float);
  rates : list (rate_column * float)
}.

Arguments group_key {K} _.
Arguments count_sums {K} _.
Arguments money_sums {K} _.
Arguments rates {K} _.

Fixpoint assoc {A B : Type} (eqb : A -> A -> bool) (a : A) (l : list (A * B))
  : option B :=
  match l with
  | [] => None
  | (a', b) :: t => if eqb a a' then Some b else assoc eqb a t
  end.

(** [stats[name]] on one row of an aggregated frame. *)
Definition row_count {K : Type} (row : AggRow K) (c : count_column)
  : Result Z :=
  match assoc count_column_eqb c (count_sums row) with
  | Some z => Ok z
  | None => KeyError (count_name c)
  end.

Definition row_money {K : Type} (row : AggRow K) (c : money_column)
  : option float := assoc money_column_eqb c (money_sums row).

Definition row_rate {K : Type} (row : AggRow K) (c : rate_column)
  : option float := assoc rate_column_eqb c (rates row).

(** [.agg({c: 'sum', ...})] on one group. *)
Definition agg {K : Type} (cs : list count_column) (ms : list money_column)
  (g : K * list PackagingData) : AggRow K :=
  {| group_key := fst g;
     count_sums := map (fun c => (c, isum (map (count_of c) (snd g)))) cs;
     money_sums := map (fun c => (c, gsum (map (money_of c) (snd g)))) ms;
     rates := [] |}.

(** [stats[rate] = stats[num] / stats[den] * 100] on one row: a true
    division of two int64 values, then a product with the integer 100. *)
Definition assign_rate {K : Type} (rate : rate_column)
  (num den : count_column) (row : AggRow K) : Result (AggRow K) :=
  n <- row_count row num ;;
  d <- row_count row den ;;
  Ok {| group_key := group_key row;
        count_sums := count_sums row;
        money_sums := money_sums row;
        rates := rates row
                 ++ [(rate, fmul (fdiv (of_int n) (of_int d)) (of_int 100))] |}.

(** Orders of the grouping keys: timestamps, strings, and pairs of strings
    compared lexicographically. *)
Definition pair_compare (a b : string * string) : comparison :=
  match String.compare (fst a) (fst b) with
  | Eq => String.compare (snd a) (snd b)
  | c => c
  end.

(** [sort_values('date')] on an aggregated frame keyed by date. *)
Fixpoint insert_row (r : AggRow Z) (l : list (AggRow Z)) : list (AggRow Z) :=
  match l with
  | [] => [r]
  | r' :: t =>
      if group_key r <=? group_key r' then r :: l else r' :: insert_row r t
  end.

Definition sort_values (l : list (AggRow Z)) : list (AggRow Z) :=
  fold_right insert_row [] l.

(** ** [DataProcessor] *)

Module DataProcessor.

(** [_to_dataframe]: [pd.DataFrame] of the list of the records' fields. *)
Definition _to_dataframe (data : list PackagingData) : DataFrame :=
  match data with
  | [] => NoColumns
  | _ => Table data
  end.

Definition sum_counts (df : DataFrame) (c : count_column) : Result Z :=
  xs <- counts df c ;; Ok (isum xs).

Definition sum_moneys (df : DataFrame) (c : money_column) : Result float :=
  xs <- moneys df c ;; Ok (fsum xs).

(** [(num / total_produced * 100) if total_produced > 0 else 0]. *)
Definition guarded_rate (num total_produced : Z) : float :=
  if 0 <? total_produced
  then fmul (fdiv (of_int num) (of_int total_produced)) (of_int 100)
  else of_int 0.

Definition calculate_kpis (df : DataFrame) : Result KPIMetrics :=
  total_produced <- sum_counts df Produced ;;
  total_returned <- sum_counts df Returned ;;
  total_reused <- sum_counts df Reused ;;
  total_waste <- sum_counts df Waste ;;
  let reuse_rate := guarded_rate total_reused total_produced in
  let waste_rate := guarded_rate total_waste total_produced in
  let recovery_rate := guarded_rate total_returned total_produced in
  co2_saved_total <- sum_moneys df Co2Saved ;;
  cost_savings_total <- sum_moneys df CostSavings ;;
  let efficiency_score :=
    fadd (fadd (fmul reuse_rate (dec 4 1))
               (fmul (fsub (of_int 100) waste_rate) (dec 3 1)))
         (fmul recovery_rate (dec 3 1)) in
  Ok {| reuse_rate := reuse_rate;
        waste_rate := waste_rate;
        recovery_rate := recovery_rate;
        co2_saved_total := co2_saved_total;
        cost_savings_total := cost_savings_total;
        efficiency_score := efficiency_score |}.

(** The columns every aggregation of [models.py] sums. *)
Definition agg_counts : list count_column :=
  [Produced; Returned; Reused; Waste].

Definition agg_moneys : list money_column := [Co2Saved; CostSavings].

Definition get_facility_performance (df : DataFrame)
  : Result (list (AggRow (string * string))) :=
  match df with
  | NoColumns => KeyError "facility_id"
  | Table rows =>
      let facility_stats :=
        map (agg agg_counts agg_moneys)
            (groupby pair_compare
               (fun r => (facility_id r, facility_name r)) rows) in
      mapM (fun row =>
              row <- assign_rate ReuseRate Reused Produced row ;;
              row <- assign_rate WasteRate Waste Produced row ;;
              assign_rate RecoveryRate Returned Produced row)
           facility_stats
  end.

Definition get_packaging_performance (df : DataFrame)
  : Result (list (AggRow string)) :=
  match df with
  | NoColumns => KeyError "packaging_type"
  | Table rows =>
      let packaging_stats :=
        map (agg agg_counts agg_moneys)
            (groupby String.compare packaging_type rows) in
      mapM (fun row =>
              row <- assign_rate ReuseRate Reused Produced row ;;
              assign_rate WasteRate Waste Produced row)
           packaging_stats
  end.

Definition get_time_series_data (df : DataFrame)
  : Result (list (AggRow Z)) :=
  match df with
  | NoColumns => KeyError "date"
  | Table rows =>
      let time_series :=
        map (agg agg_counts agg_moneys) (groupby Z.compare date rows) in
      time_series <-
        mapM (fun row =>
                row <- assign_rate ReuseRate Reused Produced row ;;
                assign_rate WasteRate Waste Produced row)
             time_series ;;
      Ok (sort_values time_series)
  end.

End DataProcessor.

(** ** [create_packaging_breakdown] (sustainability report page) *)

Definition create_packaging_breakdown (df : DataFrame)
  : Result (list (AggRow string)) :=
  match df with
  | NoColumns => KeyError "packaging_type"
  | Table rows =>
      let packaging_metrics :=
        map (agg [Produced; Returned; Reused; Recycled; Waste] [Co2Saved])
            (groupby String.compare packaging_type rows) in
      mapM (fun row =>
              row <- assign_rate ReuseRate Reused Produced row ;;
              row <- assign_rate RecoveryRate Returned Produced row ;;
              assign_rate WasteRate Waste Produced row)
           packaging_metrics
  end.

(** ** [SimulationEngine] *)

Module SimulationEngine.

(** Frames are objects: a variable holds a location of the store, [copy]
    allocates a new object, a column assignment overwrites the object in
    place. *)
Definition loc : Type := nat.
Definition store : Type := list DataFrame.

Definition frame_at (s : store) (l : loc) : DataFrame := nth l s NoColumns.

Fixpoint update (s : store) (l : loc) (df : DataFrame) : store :=
  match s, l with
  | [], _ => []
  | _ :: t, O => df :: t
  | d :: t, S l' => d :: update t l' df
  end.

(** Computations that read and write the store and may raise. *)
Definition M (A : Type) : Type := store -> Result A * store.

Definition ret {A : Type} (a : A) : M A := fun s => (Ok a, s).

Definition bindM {A B : Type} (m : M A) (k : A -> M B) : M B :=
  fun s =>
    match m s with
    | (Ok a, s') => k a s'
    | (KeyError c, s') => (KeyError c, s')
    | (IntCastingNaNError, s') => (IntCastingNaNError, s')
    end.

Notation "x <~ m ;; k" := (bindM m (fun x => k))
  (at level 61, m at next level, right associativity).

Definition lift {A : Type} (r : Result A) : M A := fun s => (r, s).

Definition deref (l : loc) : M DataFrame := fun s => (Ok (frame_at s l), s).

(** [df.copy()]: a new object with the same contents. *)
Definition copy (l : loc) : M loc :=
  fun s => (Ok (List.length s), s ++ [frame_at s l]).

Definition read_counts (l : loc) (c : count_column) : M (list Z) :=
  fun s => (counts (frame_at s l) c, s).

Definition read_moneys (l : loc) (c : money_column) : M (list float) :=
  fun s => (moneys (frame_at s l) c, s).

Definition write_counts (l : loc) (c : count_column) (values : list Z)
  : M unit :=
  fun s => (Ok tt, update s l (assign_counts c values (frame_at s l))).

Definition write_moneys (l : loc) (c : money_column) (values : list float)
  : M unit :=
  fun s => (Ok tt, update s l (assign_moneys c values (frame_at s l))).

(** The engine object: [self.base_data]. *)
Record Engine : Type := { base_data : loc }.

(** The dictionaries [run_scenario] returns, with their keys. *)
Record ScenarioKPIs : Type := {
  kpi_reuse_rate : float;
  kpi_waste_rate : float;
  kpi_co2_saved : float;
  kpi_cost_savings : float
}.

Record Improvements : Type := {
  reuse_rate_improvement : float;
  waste_rate_reduction : float;
  additional_co2_saved : float;
  additional_cost_savings : float
}.

Record ScenarioResult : Type := {
  base_metrics : ScenarioKPIs;
  projected_metrics : ScenarioKPIs;
  improvements : Improvements
}.

(** [__init__]: [self.base_data = base_data.copy()]. *)
Definition __init__ (base : loc) : M Engine :=
  l <~ copy base ;;
  ret {| base_data := l |}.

Definition _calculate_scenario_kpis (data : DataFrame) : Result ScenarioKPIs :=
  total_produced <- DataProcessor.sum_counts data Produced ;;
  total_reused <- DataProcessor.sum_counts data Reused ;;
  total_waste <- DataProcessor.sum_counts data Waste ;;
  co2 <- DataProcessor.sum_moneys data Co2Saved ;;
  cost <- DataProcessor.sum_moneys data CostSavings ;;
  Ok {| kpi_reuse_rate := DataProcessor.guarded_rate total_reused total_produced;
        kpi_waste_rate := DataProcessor.guarded_rate total_waste total_produced;
        kpi_co2_saved := co2;
        kpi_cost_savings := cost |}.

(** [(column * factor).astype(int)]: the int64 entries are converted to
    float64, multiplied and converted back. *)
Definition scaled (factor : float) (column : list Z) : Result (list Z) :=
  astype_int (map (fun x => fmul (of_int x) factor) column).

Definition run_scenario (self : Engine)
  (reuse_improvement waste_reduction : float) : M ScenarioResult :=
  simulated_data <~ copy (base_data self) ;;
  (* Apply improvements *)
  reused <~ read_counts simulated_data Reused ;;
  reused <~ lift (scaled (fadd (of_int 1) reuse_improvement) reused) ;;
  _ <~ write_counts simulated_data Reused reused ;;
  waste <~ read_counts simulated_data Waste ;;
  waste <~ lift (scaled (fsub (of_int 1) waste_reduction) waste) ;;
  _ <~ write_counts simulated_data Waste waste ;;
  (* Ensure totals are consistent *)
  returned <~ read_counts simulated_data Returned ;;
  reused <~ read_counts simulated_data Reused ;;
  _ <~ write_counts simulated_data Recycled
         (map (Z.max 0) (map2 isub returned reused)) ;;
  (* Calculate new CO2 and cost savings *)
  sim_reused <~ read_counts simulated_data Reused ;;
  base_reused <~ read_counts (base_data self) Reused ;;
  let additional_reuse := map2 isub sim_reused base_reused in
  base_waste <~ read_counts (base_data self) Waste ;;
  sim_waste <~ read_counts simulated_data Waste ;;
  let waste_reduction_amount := map2 isub base_waste sim_waste in
  let co2_factor := dec 5 1 in
  let cost_factor := dec 10 2 in
  base_co2 <~ read_moneys (base_data self) Co2Saved ;;
  _ <~ write_moneys simulated_data Co2Saved
         (map2 fadd base_co2
            (map (fun z => fmul (of_int z) co2_factor)
                 (map2 iadd additional_reuse waste_reduction_amount))) ;;
  base_cost <~ read_moneys (base_data self) CostSavings ;;
  _ <~ write_moneys simulated_data CostSavings
         (map2 fadd base_cost
            (map (fun z => fmul (of_int z) cost_factor)
                 (map2 iadd additional_reuse waste_reduction_amount))) ;;
  (* Calculate impact metrics *)
  base <~ deref (base_data self) ;;
  base_kpis <~ lift (_calculate_scenario_kpis base) ;;
  simulated <~ deref simulated_data ;;
  new_kpis <~ lift (_calculate_scenario_kpis simulated) ;;
  ret {| base_metrics := base_kpis;
         projected_metrics := new_kpis;
         improvements :=
           {| reuse_rate_improvement :=
                fsub (kpi_reuse_rate new_kpis) (kpi_reuse_rate base_kpis);
              waste_rate_reduction :=
                fsub (kpi_waste_rate base_kpis) (kpi_waste_rate new_kpis);
              additional_co2_saved :=
                fsub (kpi_co2_saved new_kpis) (kpi_co2_saved base_kpis);
              additional_cost_savings :=
                fsub (kpi_cost_savings new_kpis)
                     (kpi_cost_savings base_kpis) |} |}.

(** Any number of scenario runs on one engine, one after the other. *)
Fixpoint run_scenarios (self : Engine) (params : list (float * float))
  (s : store) : store :=
  match params with
  | [] => s
  | (ri, wr) :: t => run_scenarios self t (snd (run_scenario self ri wr s))
  end.

(** What [run_scenario] amounts to on a frame with columns (see
    [run_scenario_table]): the row that a base row becomes, given its
    converted reused and waste counts; the projected rows, when both
    conversions succeed; and the result computed from the base rows and the
    projected rows. *)
Definition projected (r : PackagingData) (reused waste : Z) : PackagingData :=
  let gain := iadd (isub reused (total_reused r)) (isub (total_waste r) waste) in
  {| date := date r; facility_id := facility_id r;
     facility_name := facility_name r; facility_type := facility_type r;
     packaging_type := packaging_type r;
     total_produced := total_produced r;
     total_returned := total_returned r;
     total_reused := reused;
     total_recycled := Z.max 0 (isub (total_returned r) reused);
     total_waste := waste;
     co2_saved := fadd (co2_saved r) (fmul (of_int gain) (dec 5 1));
     cost_savings := fadd (cost_savings r) (fmul (of_int gain) (dec 10 2));
     latitude := latitude r; longitude := longitude r |}.

Definition project_rows (reuse_improvement waste_reduction : float)
  (rows : list PackagingData) : Result (list PackagingData) :=
  reused <- scaled (fadd (of_int 1) reuse_improvement)
              (map total_reused rows) ;;
  waste <- scaled (fsub (of_int 1) waste_reduction) (map total_waste rows) ;;
  Ok (map2 (fun r p => projected r (fst p) (snd p)) rows
           (combine reused waste)).

Definition scenario_kpis (rows : list PackagingData) : ScenarioKPIs :=
  let total_produced := isum (map total_produced rows) in
  {| kpi_reuse_rate :=
       DataProcessor.guarded_rate (isum (map total_reused rows)) total_produced;
     kpi_waste_rate :=
       DataProcessor.guarded_rate (isum (map total_waste rows)) total_produced;
     kpi_co2_saved := fsum (map co2_saved rows);
     kpi_cost_savings := fsum (map cost_savings rows) |}.

Definition scenario_result (rows rows' : list PackagingData)
  : ScenarioResult :=
  let base_kpis := scenario_kpis rows in
  let new_kpis := scenario_kpis rows' in
  {| base_metrics := base_kpis;
     projected_metrics := new_kpis;
     improvements :=
       {| reuse_rate_improvement :=
            fsub (kpi_reuse_rate new_kpis) (kpi_reuse_rate base_kpis);
          waste_rate_reduction :=
            fsub (kpi_waste_rate base_kpis) (kpi_waste_rate new_kpis);
          additional_co2_saved :=
            fsub (kpi_co2_saved new_kpis) (kpi_co2_saved base_kpis);
          additional_cost_savings :=
            fsub (kpi_cost_savings new_kpis) (kpi_cost_savings base_kpis) |} |}.

(** Every scaled count of the frame is a number: the condition under which
    the two conversions of [run_scenario] do not raise. *)
Definition scaling_is_finite (reuse_improvement waste_reduction : float)
  (rows : list PackagingData) : bool :=
  forallb (fun r => is_finite (fmul (of_int (total_reused r))
                                    (fadd (of_int 1) reuse_improvement)))
          rows
  && forallb (fun r => is_finite (fmul (of_int (total_waste r))
                                       (fsub (of_int 1) waste_reduction)))
             rows.

(** Python's [==] on the metrics dictionaries, and the test that every
    delta is zero. *)
Definition kpis_eqb (a b : ScenarioKPIs) : bool :=
  feqb (kpi_reuse_rate a) (kpi_reuse_rate b)
  && feqb (kpi_waste_rate a) (kpi_waste_rate b)
  && feqb (kpi_co2_saved a) (kpi_co2_saved b)
  && feqb (kpi_cost_savings a) (kpi_cost_savings b).

Definition no_improvement (i : Improvements) : bool :=
  feqb (reuse_rate_improvement i) zero
  && feqb (waste_rate_reduction i) zero
  && feqb (additional_co2_saved i) zero
  && feqb (additional_cost_savings i) zero.

Definition finite_kpis (k : ScenarioKPIs) : bool :=
  is_finite (kpi_reuse_rate k)
  && is_finite (kpi_waste_rate k)
  && is_finite (kpi_co2_saved k)
  && is_finite (kpi_cost_savings k).

(** A whole session: the caller's frame is the only object of the store
    (location 0); an engine is built on it (its copy is location 1) and one
    scenario is run (the simulated frame is location 2). *)
Definition scenario (df : DataFrame) (reuse_improvement waste_reduction : float)
  : Result ScenarioResult * store :=
  (self <~ __init__ 0%nat ;;
   run_scenario self reuse_improvement waste_reduction) [df].

Definition simulated_data (df : DataFrame)
  (reuse_improvement waste_reduction : float) : DataFrame :=
  frame_at (snd (scenario df reuse_improvement waste_reduction)) 2%nat.

End SimulationEngine.

(** ** Sample records *)

(** A record of the Brussels brewery for glass bottles on day [d]. *)
Definition glass_record (d : Z) (produced returned reused recycled waste : Z)
  (co2 cost : float) : PackagingData :=
  {| date := d;
     facility_id := "BR001";
     facility_name := "Brussels Brewery";
     facility_type := "Brewery";
     packaging_type := "Glass Bottles";
     total_produced := produced;
     total_returned := returned;
     total_reused := reused;
     total_recycled := recycled;
     total_waste := waste;
     co2_saved := co2;
     cost_savings := cost;
     latitude := dec 508503 4;
     longitude := dec 43517 4 |}.

(** The count identities of a record: waste is what was not returned,
    returned units are reused or recycled, and no count is negative. *)
Definition count_identities (r : PackagingData) : Prop :=
  total_waste r = total_produced r - total_returned r
  /\ total_returned r = total_reused r + total_recycled r
  /\ 0 <= total_produced r /\ 0 <= total_returned r /\ 0 <= total_reused r
  /\ 0 <= total_recycled r /\ 0 <= total_waste r.

(** The records the identity scenario reproduces: reused and waste counts
    that binary64 holds exactly. *)
Definition exact_record (r : PackagingData) : Prop :=
  - 2 ^ 53 < total_reused r < 2 ^ 53
  /\ - 2 ^ 53 < total_waste r < 2 ^ 53.

(** The record a record is projected to when its reused and waste counts
    are converted to themselves. *)
Definition kept (r : PackagingData) : PackagingData :=
  SimulationEngine.projected r (total_reused r) (total_waste r).

(** Two floats that are the same but for the sign of a zero. *)
Definition same_but_zero_sign (x y : float) : Prop :=
  match x, y with
  | S754_zero _, S754_zero _ => True
  | _, _ => x = y
  end.

(** What an aggregated row says of the members of its group: it carries
    the int64 sums of their produced, returned, reused and waste units;
    in int64 arithmetic the waste is what was not returned and the returned
    units are the reused ones plus the recycled units of the members; and
    when the produced units of the members add up within the int64 range,
    both identities hold over the integers and the reused units are
    between 0 and the returned ones. *)
Definition row_identities {K : Type} (members : list PackagingData)
  (row : AggRow K) : Prop :=
  let p := isum (map total_produced members) in
  let rt := isum (map total_returned members) in
  let ru := isum (map total_reused members) in
  let rc := isum (map total_recycled members) in
  let w := isum (map total_waste members) in
  row_count row Produced = Ok p
  /\ row_count row Returned = Ok rt
  /\ row_count row Reused = Ok ru
  /\ row_count row Waste = Ok w
  /\ w = isub p rt
  /\ rt = iadd ru rc
  /\ (zsum (map total_produced members) <= int64_max ->
      w = p - rt /\ rt = ru + rc /\ 0 <= ru <= rt).

(** The members of the group of key [k]. *)
Definition members {K : Type} (cmp : K -> K -> comparison)
  (key : PackagingData -> K) (rows : list PackagingData) (k : K)
  : list PackagingData :=
  filter (fun r => same_key cmp (key r) k) rows.

(** The shape of the rows an aggregation of [models.py] returns for a
    group: its key and the sums of the [agg] dictionary, whatever rates are
    assigned next. *)
Definition of_group {K : Type} (g : K * list PackagingData) (row : AggRow K)
  : Prop :=
  group_key row = fst g
  /\ count_sums row
     = count_sums (agg DataProcessor.agg_counts DataProcessor.agg_moneys g)
  /\ money_sums row
     = money_sums (agg DataProcessor.agg_counts DataProcessor.agg_moneys g).

(** ** [calculate_environmental_impact] (sustainability report page) *)

(** [df['packaging_type'].unique()]: the distinct values, in the order of
    their first appearance. *)
Fixpoint unique (l : list string) : list string :=
  match l with
  | [] => []
  | x :: t => x :: filter (fun y => negb (String.eqb x y)) (unique t)
  end.

(** [water_per_unit_saved.get(packaging_type, 10)], litres per unit. *)
Definition water_per_unit_saved (t : string) : Z :=
  if String.eqb t "Glass Bottles" then 15
  else if String.eqb t "Aluminum Cans" then 25
  else if String.eqb t "Plastic Bottles" then 8
  else if String.eqb t "Cardboard Cartons" then 5
  else if String.eqb t "Wooden Crates" then 2
  else 10.

(** [energy_per_unit_saved.get(packaging_type, 1.0)], kWh per unit. *)
Definition energy_per_unit_saved (t : string) : float :=
  if String.eqb t "Glass Bottles" then dec 8 1
  else if String.eqb t "Aluminum Cans" then dec 25 1
  else if String.eqb t "Plastic Bottles" then dec 6 1
  else if String.eqb t "Cardboard Cartons" then dec 3 1
  else if String.eqb t "Wooden Crates" then dec 1 1
  else dec 10 1.

(** [df[df['packaging_type'] == t]], then the reused and recycled units of
    that selection. *)
Definition saved_units (rows : list PackagingData) (t : string) : Z :=
  let type_data := filter (fun r => String.eqb (packaging_type r) t) rows in
  iadd (isum (map total_reused type_data))
       (isum (map total_recycled type_data)).

(** The dictionary [calculate_environmental_impact] returns, with its
    keys. *)
Record EnvironmentalImpact : Type := {
  impact_total_produced : Z;
  impact_total_returned : Z;
  impact_total_reused : Z;
  impact_total_recycled : Z;
  impact_total_waste : Z;
  impact_reuse_rate : float;
  impact_recycling_rate : float;
  impact_waste_rate : float;
  impact_recovery_rate : float;
  impact_co2_saved : float;
  impact_co2_avoided : float;
  impact_water_saved : float;
  impact_energy_saved : float;
  impact_landfill_waste_avoided : Z;
  impact_circular_score : float
}.

(** The water saved, in litres, before the conversion to cubic metres. *)
Definition water_litres (rows : list PackagingData) : Z :=
  fold_left
    (fun water_saved t =>
       iadd water_saved (imul (saved_units rows t) (water_per_unit_saved t)))
    (unique (map packaging_type rows)) 0.

(** [None] is the empty dictionary returned for an empty frame. *)
Definition calculate_environmental_impact (df : DataFrame)
  : option EnvironmentalImpact :=
  match df with
  | NoColumns | Table [] => None
  | Table rows =>
      let total_produced := isum (map total_produced rows) in
      let total_returned := isum (map total_returned rows) in
      let total_reused := isum (map total_reused rows) in
      let total_recycled := isum (map total_recycled rows) in
      let total_waste := isum (map total_waste rows) in
      let total_co2_saved := fsum (map co2_saved rows) in
      let reuse_rate := DataProcessor.guarded_rate total_reused total_produced in
      let recycling_rate :=
        DataProcessor.guarded_rate total_recycled total_produced in
      let waste_rate := DataProcessor.guarded_rate total_waste total_produced in
      let recovery_rate :=
        DataProcessor.guarded_rate total_returned total_produced in
      let co2_per_unit_avoided := dec 5 1 in
      let total_co2_avoided :=
        fmul (of_int (iadd total_reused total_recycled)) co2_per_unit_avoided in
      let water_saved := water_litres rows in
      let energy_saved :=
        fold_left
          (fun energy_saved t =>
             fadd energy_saved
                  (fmul (of_int (saved_units rows t)) (energy_per_unit_saved t)))
          (unique (map packaging_type rows)) (of_int 0) in
      let circular_score :=
        fadd (fadd (fmul reuse_rate (dec 5 1)) (fmul recycling_rate (dec 3 1)))
             (fmul (fsub (of_int 100) waste_rate) (dec 2 1)) in
      Some {| impact_total_produced := total_produced;
              impact_total_returned := total_returned;
              impact_total_reused := total_reused;
              impact_total_recycled := total_recycled;
              impact_total_waste := total_waste;
              impact_reuse_rate := reuse_rate;
              impact_recycling_rate := recycling_rate;
              impact_waste_rate := waste_rate;
              impact_recovery_rate := recovery_rate;
              impact_co2_saved := fdiv total_co2_saved (of_int 1000);
              impact_co2_avoided := fdiv total_co2_avoided (of_int 1000);
              impact_water_saved := fdiv (of_int water_saved) (of_int 1000);
              impact_energy_saved := energy_saved;
              impact_landfill_waste_avoided := total_returned;
              impact_circular_score := circular_score |}
  end.

(** The count of column [c] summed over the rows of an aggregated frame. *)
Definition total_of_rows {K : Type} (c : count_column) (out : list (AggRow K))
  : Result Z :=
  xs <- mapM (fun row => row_count row c) out ;; Ok (isum xs).

(** * Properties *)

Import SimulationEngine.

(** ** Integers that wrap around *)

Lemma wrap_eq (z : Z) : wrap z = z - 2 ^ 64 * ((z - int64_min) / 2 ^ 64).
Proof.
  unfold wrap. rewrite Z.mod_eq by (vm_compute; discriminate). lia.
Qed.

Lemma wrap_shift (z k : Z) : wrap (z + k * 2 ^ 64) = wrap z.
Proof.
  unfold wrap.
  replace (z + k * 2 ^ 64 - int64_min) with (z - int64_min + k * 2 ^ 64) by lia.
  now rewrite Z.mod_add by (vm_compute; discriminate).
Qed.

Lemma wrap_range (z : Z) : int64_min <= wrap z <= int64_max.
Proof.
  unfold wrap.
  pose proof (Z.mod_pos_bound (z - int64_min) (2 ^ 64) ltac:(reflexivity)).
  unfold int64_min, int64_max in *. lia.
Qed.

Lemma wrap_id (z : Z) : int64_min <= z <= int64_max -> wrap z = z.
Proof.
  intros H. unfold wrap.
  rewrite Z.mod_small; [lia|]. unfold int64_min, int64_max in *. lia.
Qed.

Lemma wrap_add_l (a b : Z) : wrap (wrap a + b) = wrap (a + b).
Proof.
  rewrite (wrap_eq a).
  replace (a - 2 ^ 64 * ((a - int64_min) / 2 ^ 64) + b)
    with (a + b + (- ((a - int64_min) / 2 ^ 64)) * 2 ^ 64) by lia.
  apply wrap_shift.
Qed.

Lemma wrap_add_r (a b : Z) : wrap (a + wrap b) = wrap (a + b).
Proof. now rewrite Z.add_comm, wrap_add_l, Z.add_comm. Qed.

Lemma wrap_sub_l (a b : Z) : wrap (wrap a - b) = wrap (a - b).
Proof. unfold Z.sub. apply wrap_add_l. Qed.

Lemma wrap_sub_r (a b : Z) : wrap (a - wrap b) = wrap (a - b).
Proof.
  rewrite (wrap_eq b).
  replace (a - (b - 2 ^ 64 * ((b - int64_min) / 2 ^ 64)))
    with (a - b + ((b - int64_min) / 2 ^ 64) * 2 ^ 64) by lia.
  apply wrap_shift.
Qed.

Lemma wrap_mul_l (a b : Z) : wrap (wrap a * b) = wrap (a * b).
Proof.
  rewrite (wrap_eq a).
  replace ((a - 2 ^ 64 * ((a - int64_min) / 2 ^ 64)) * b)
    with (a * b + (- ((a - int64_min) / 2 ^ 64) * b) * 2 ^ 64) by lia.
  apply wrap_shift.
Qed.

Lemma wrap_wrap (a : Z) : wrap (wrap a) = wrap a.
Proof. apply wrap_id, wrap_range. Qed.

(** ** Lists and columns *)

Lemma zsum_shift (xs : list Z) (a : Z) : fold_left Z.add xs a = a + zsum xs.
Proof.
  unfold zsum. revert a.
  induction xs as [|x xs IH]; intros a; simpl.
  - lia.
  - rewrite (IH (a + x)), (IH x). lia.
Qed.

Lemma zsum_cons (x : Z) (xs : list Z) : zsum (x :: xs) = x + zsum xs.
Proof. unfold zsum at 1. simpl. apply zsum_shift. Qed.

Lemma zsum_nil : zsum [] = 0.
Proof. reflexivity. Qed.

Lemma isum_nil : isum [] = 0.
Proof. reflexivity. Qed.

Lemma isum_cons (x : Z) (xs : list Z) : isum (x :: xs) = wrap (x + isum xs).
Proof. unfold isum. now rewrite zsum_cons, wrap_add_r. Qed.

Lemma zsum_nonneg (xs : list Z) : Forall (fun x => 0 <= x) xs -> 0 <= zsum xs.
Proof.
  induction 1 as [|x xs Hx _ IH]; rewrite ?zsum_nil, ?zsum_cons; lia.
Qed.

Lemma map2_map {A B C D : Type} (f : B -> C -> D) (g : A -> B) (h : A -> C)
  (l : list A) :
  map2 f (map g l) (map h l) = map (fun a => f (g a) (h a)) l.
Proof. induction l as [|a l IH]; simpl; [reflexivity | now rewrite IH]. Qed.

Lemma map_fst_combine {A B : Type} (xs : list A) (ys : list B) :
  List.length xs = List.length ys -> map fst (combine xs ys) = xs.
Proof.
  revert ys. induction xs as [|x xs IH]; intros [|y ys] H; simpl in *;
    try discriminate; [reflexivity|].
  now rewrite IH by lia.
Qed.

Lemma map_snd_combine {A B : Type} (xs : list A) (ys : list B) :
  List.length xs = List.length ys -> map snd (combine xs ys) = ys.
Proof.
  revert ys. induction xs as [|x xs IH]; intros [|y ys] H; simpl in *;
    try discriminate; [reflexivity|].
  now rewrite IH by lia.
Qed.

(** ** Conversions that may raise *)

Lemma mapM_length {A B : Type} (f : A -> Result B) (l : list A)
  (l' : list B) :
  mapM f l = Ok l' -> List.length l' = List.length l.
Proof.
  revert l'. induction l as [|a l IH]; simpl; intros l' H.
  - now injection H as <-.
  - destruct (f a); try discriminate. simpl in H.
    destruct (mapM f l) as [bs| |]; try discriminate. simpl in H.
    injection H as <-. simpl. now rewrite (IH bs).
Qed.

Lemma mapM_Forall2_ok {A B : Type} (f : A -> Result B) (l : list A)
  (l' : list B) :
  mapM f l = Ok l' -> Forall2 (fun a b => f a = Ok b) l l'.
Proof.
  revert l'. induction l as [|a l IH]; simpl; intros l' H.
  - injection H as <-. constructor.
  - destruct (f a) eqn:E; try discriminate. simpl in H.
    destruct (mapM f l) as [bs| |]; try discriminate. simpl in H.
    injection H as <-. constructor; auto.
Qed.

Lemma trunc_cases (x : float) :
  (is_finite x = true /\ exists z, trunc x = Ok z)
  \/ (is_finite x = false /\ trunc x = IntCastingNaNError).
Proof. destruct x; simpl; eauto. Qed.

Lemma scaled_cases (factor : float) (column : list Z) :
  (forallb (fun x => is_finite (fmul (of_int x) factor)) column = true
   /\ exists zs, scaled factor column = Ok zs)
  \/ (forallb (fun x => is_finite (fmul (of_int x) factor)) column = false
      /\ scaled factor column = IntCastingNaNError).
Proof.
  unfold scaled, astype_int.
  induction column as [|x column IH]; cbn [map mapM forallb].
  - left. eauto.
  - destruct (trunc_cases (fmul (of_int x) factor)) as [(Hf & z & E)|(Hf & E)];
      rewrite Hf, E; cbn [bind andb]; [|now right].
    destruct IH as [(Hc & zs & Ec)|(Hc & Ec)]; rewrite Hc, Ec; cbn [bind].
    + left. eauto.
    + now right.
Qed.

Lemma combine_map {A B C : Type} (f : A -> B) (g : A -> C) (l : list A) :
  combine (map f l) (map g l) = map (fun a => (f a, g a)) l.
Proof. induction l as [|a l IH]; simpl; [reflexivity | now rewrite IH]. Qed.

Lemma zipped {A B : Type} (xs : list A) (ys : list B) :
  List.length ys = List.length xs ->
  exists l : list (A * B), xs = map fst l /\ ys = map snd l.
Proof.
  intros H. exists (combine xs ys).
  now rewrite map_fst_combine, map_snd_combine by lia.
Qed.

Lemma scaled_length (factor : float) (column zs : list Z) :
  scaled factor column = Ok zs -> List.length zs = List.length column.
Proof.
  unfold scaled, astype_int. intros H.
  apply mapM_length in H. now rewrite length_map in H.
Qed.

(** ** The store *)

Lemma frame_at_new (s : store) (df : DataFrame) :
  frame_at (s ++ [df]) (List.length s) = df.
Proof. unfold frame_at. now rewrite app_nth2, Nat.sub_diag by lia. Qed.

Lemma frame_at_old (s : store) (df : DataFrame) (l : loc) :
  (l < List.length s)%nat -> frame_at (s ++ [df]) l = frame_at s l.
Proof. intros H. unfold frame_at. now rewrite app_nth1. Qed.

Lemma update_new (s : store) (df df' : DataFrame) :
  update (s ++ [df]) (List.length s) df' = s ++ [df'].
Proof. induction s as [|d s IH]; simpl; [reflexivity | now rewrite IH]. Qed.

Ltac step_store Hb Hrows :=
  repeat (rewrite ?frame_at_new, ?update_new, ?frame_at_old, ?Hrows
            by exact Hb;
          cbn [counts moneys assign_counts assign_moneys fst snd];
          rewrite ?map_map, ?map2_map, ?combine_map).

(** ** Binary64 facts *)

(** The literals of the source are the binary64 numbers Python reads:
    [0.15] is 5404319552844595 * 2^-55 and [1 + 0.15] is the literal
    [1.15]. *)
Example dec_015 : dec 15 2 = S754_finite false 5404319552844595 (-55).
Proof. reflexivity. Qed.

Example one_plus_015 : fadd (of_int 1) (dec 15 2) = dec 115 2.
Proof. vm_compute. reflexivity. Qed.

(** [int(560 * 1.15)] is 644, and [int(100 * 1.15)] is 114, since
    [100 * 1.15] is 114.99999999999999 in binary64. *)
Example scale_560 : trunc (fmul (of_int 560) (dec 115 2)) = Ok 644.
Proof. vm_compute. reflexivity. Qed.

Example scale_100 : trunc (fmul (of_int 100) (dec 115 2)) = Ok 114.
Proof. vm_compute. reflexivity. Qed.

(** Truncation is toward zero, and [0 / 0] is NaN; the conversion of a NaN
    or of an infinity raises, and a number outside the int64 range converts
    to [-2^63]. *)
Example trunc_negative : trunc (fmul (of_int (-3)) (dec 5 1)) = Ok (-1).
Proof. vm_compute. reflexivity. Qed.

Example zero_by_zero : fdiv (of_int 0) (of_int 0) = S754_nan.
Proof. reflexivity. Qed.

Example trunc_nan : trunc (fmul (of_int 560) S754_nan) = IntCastingNaNError.
Proof. reflexivity. Qed.

Example trunc_out_of_range :
  trunc (fmul (of_int 560) (of_int (10 ^ 30))) = Ok int64_min.
Proof. vm_compute. reflexivity. Qed.

(** int64 sums wrap around: [2^62 + 2^62] is [-2^63]. *)
Example isum_wraps : isum [2 ^ 62; 2 ^ 62] = - 2 ^ 63.
Proof. reflexivity. Qed.

(** Ten times [0.1] add up to [1.0] in pairs and with compensation, where
    a sum from left to right gives 0.9999999999999999. *)
Example fsum_tenths :
  fsum (repeat (dec 1 1) 10) = of_int 1
  /\ gsum (repeat (dec 1 1) 10) = of_int 1
  /\ fold_left fadd (repeat (dec 1 1) 10) zero
     = S754_finite false 9007199254740991 (-53).
Proof. repeat split; vm_compute; reflexivity. Qed.

Lemma iter_pos_iter {A : Type} (f : A -> A) (p : positive) (x : A) :
  iter_pos f p x = Pos.iter f x p.
Proof.
  revert x. induction p as [p IH|p IH|]; intros x; simpl.
  - now rewrite !IH, !Pos.iter_swap.
  - now rewrite !IH.
  - reflexivity.
Qed.

Lemma digits2_pos_shift (p k : positive) :
  digits2_pos (Pos.iter xO p k) = (digits2_pos p + k)%positive.
Proof.
  induction k as [|k IH] using Pos.peano_ind.
  - simpl. now rewrite Pos.add_1_r.
  - rewrite Pos.iter_succ. simpl. rewrite IH. lia.
Qed.

Lemma shr_shift (m k : positive) :
  iter_pos shr_1 k (Build_shr_record (Zpos (Pos.iter xO m k)) false false)
  = Build_shr_record (Zpos m) false false.
Proof.
  rewrite iter_pos_iter.
  induction k as [|k IH] using Pos.peano_ind.
  - reflexivity.
  - rewrite !Pos.iter_succ, <- Pos.iter_swap. exact IH.
Qed.

(** Rounding a mantissa that is already canonical changes nothing. *)
Lemma round_canonical (s : bool) (m : positive) (e : Z) :
  bounded prec emax m e = true ->
  binary_round_aux prec emax s (Zpos m) e loc_Exact = S754_finite s m e.
Proof.
  unfold bounded, canonical_mantissa. intros H.
  apply andb_prop in H. destruct H as [Hc Hb].
  apply Z.eqb_eq in Hc.
  unfold binary_round_aux, shr_fexp, Zdigits2, shr_record_of_loc.
  rewrite Hc, Z.sub_diag. cbn [shr round_nearest_even shr_m loc_of_shr_record].
  unfold Zdigits2. rewrite Hc, Z.sub_diag. cbn [shr shr_m].
  now rewrite Hb.
Qed.

(** Rounding [m * 2^k] at exponent [e - k] gives back a canonical [m] at
    exponent [e]. *)
Lemma round_shifted (s : bool) (m k : positive) (e : Z) :
  bounded prec emax m e = true ->
  binary_round_aux prec emax s (Zpos (Pos.iter xO m k)) (e - Zpos k) loc_Exact
  = S754_finite s m e.
Proof.
  intros H. pose proof H as H'.
  unfold bounded, canonical_mantissa in H'.
  apply andb_prop in H'. destruct H' as [Hc Hb].
  apply Z.eqb_eq in Hc.
  unfold binary_round_aux, shr_fexp, Zdigits2, shr_record_of_loc.
  rewrite digits2_pos_shift.
  replace (Zpos (digits2_pos m + k) + (e - Zpos k))
    with (Zpos (digits2_pos m) + e) by lia.
  rewrite Hc.
  replace (e - (e - Zpos k)) with (Zpos k) by lia.
  cbn [shr]. rewrite shr_shift.
  cbn [round_nearest_even shr_m loc_of_shr_record].
  replace (e - Zpos k + Zpos k) with e by lia.
  unfold Zdigits2. rewrite Hc, Z.sub_diag. cbn [shr shr_m].
  now rewrite Hb.
Qed.

Lemma one_eq : one = S754_finite false 4503599627370496 (-52).
Proof. reflexivity. Qed.

(** Multiplication by [1.0] is exact. *)
Lemma fmul_one_r (x : float) : valid x = true -> fmul x one = x.
Proof.
  rewrite one_eq. destruct x as [s|s| |s m e]; intros H; try reflexivity.
  - simpl. now destruct s.
  - simpl. now destruct s.
  - unfold fmul, SFmul.
    rewrite xorb_false_r, Pos.mul_comm.
    change (4503599627370496 * m)%positive with (Pos.iter xO m 52).
    change (e + -52) with (e - 52).
    now apply round_shifted.
Qed.

Lemma fmul_comm (x y : float) : fmul x y = fmul y x.
Proof.
  destruct x as [sx|sx| |sx mx ex], y as [sy|sy| |sy my ey]; simpl;
    try reflexivity; try (now rewrite xorb_comm).
  unfold fmul, SFmul.
  now rewrite xorb_comm, Pos.mul_comm, Z.add_comm.
Qed.

(** A number minus itself is [+0.0]. *)
Lemma fsub_diag (x : float) : is_finite x = true -> fsub x x = zero.
Proof.
  destruct x as [s|s| |s m e]; simpl; intros H; try discriminate.
  - now destruct s.
  - unfold fsub, SFsub. now rewrite Z.sub_diag.
Qed.

Lemma digits2_pos_lower (p : positive) :
  2 ^ (Zpos (digits2_pos p) - 1) <= Zpos p.
Proof.
  induction p as [p IH|p IH|]; simpl digits2_pos.
  - rewrite Pos2Z.inj_succ.
    replace (Z.succ (Zpos (digits2_pos p)) - 1)
      with (Z.succ (Zpos (digits2_pos p) - 1)) by lia.
    rewrite Z.pow_succ_r by lia. lia.
  - rewrite Pos2Z.inj_succ.
    replace (Z.succ (Zpos (digits2_pos p)) - 1)
      with (Z.succ (Zpos (digits2_pos p) - 1)) by lia.
    rewrite Z.pow_succ_r by lia. lia.
  - simpl. lia.
Qed.

Lemma digits2_pos_small (p : positive) :
  Zpos p < 2 ^ 53 -> Zpos (digits2_pos p) <= 53.
Proof.
  intros H. destruct (Z_le_gt_dec (Zpos (digits2_pos p)) 53) as [|Hgt]; auto.
  pose proof (digits2_pos_lower p) as Hl.
  assert (2 ^ 53 <= 2 ^ (Zpos (digits2_pos p) - 1))
    by (apply Z.pow_le_mono_r; lia).
  lia.
Qed.

Lemma shiftr_shifted (p k : positive) :
  Z.shiftr (Zpos (Pos.iter xO p k)) (Zpos k) = Zpos p.
Proof.
  assert (E : Zpos (Pos.iter xO p k) = Z.shiftl (Zpos p) (Zpos k)).
  { cbn [Z.shiftl].
    apply (Pos.iter_swap_gen _ _ Zpos xO (Z.mul 2)). reflexivity. }
  rewrite E, Z.shiftr_shiftl_l, Z.sub_diag by lia. reflexivity.
Qed.

(** An integer of at most 53 bits converts to a float exactly. *)
Lemma binary_round_small (s : bool) (p : positive) :
  Zpos (digits2_pos p) <= 53 ->
  exists m e,
    binary_round prec emax s p 0 = S754_finite s m e
    /\ bounded prec emax m e = true
    /\ e <= 0
    /\ Z.shiftr (Zpos m) (- e) = Zpos p.
Proof.
  intros Hd.
  unfold binary_round, shl_align.
  assert (Hf : fexp prec emax (Zpos (digits2_pos p) + 0)
               = Zpos (digits2_pos p) - 53).
  { unfold fexp, emin, prec, emax. lia. }
  rewrite Hf, Z.sub_0_r.
  destruct (Zpos (digits2_pos p) - 53) as [|q|q] eqn:Hq.
  - exists p, 0.
    assert (Hb : bounded prec emax p 0 = true).
    { unfold bounded, canonical_mantissa.
      apply andb_true_intro; split; [apply Z.eqb_eq | apply Z.leb_le];
        unfold fexp, emin, prec, emax; lia. }
    rewrite (round_canonical s p 0 Hb). repeat split; auto. lia.
  - lia.
  - exists (Pos.iter xO p q), (Zneg q).
    assert (Hb : bounded prec emax (Pos.iter xO p q) (Zneg q) = true).
    { unfold bounded, canonical_mantissa.
      rewrite digits2_pos_shift.
      apply andb_true_intro; split; [apply Z.eqb_eq | apply Z.leb_le];
        unfold fexp, emin, prec, emax; lia. }
    rewrite (round_canonical s _ _ Hb). repeat split; auto; try lia.
    apply shiftr_shifted.
Qed.

Lemma of_int_exact (c : Z) :
  - 2 ^ 53 < c < 2 ^ 53 -> valid (of_int c) = true /\ trunc (of_int c) = Ok c.
Proof.
  intros Hc. unfold of_int, binary_normalize.
  destruct c as [|p|p].
  - split; reflexivity.
  - destruct (binary_round_small false p) as (m & e & E & Hb & He & Hv).
    { apply digits2_pos_small. lia. }
    rewrite E. split; [exact Hb|].
    unfold trunc.
    assert (Ha : match e with
                 | Zneg q => Z.shiftr (Zpos m) (Zpos q)
                 | _ => Z.shiftl (Zpos m) e
                 end = Zpos p).
    { destruct e as [|q|q]; [exact Hv | lia | exact Hv]. }
    rewrite Ha.
    replace ((int64_min <=? Zpos p) && (Zpos p <=? int64_max)) with true;
      [reflexivity|].
    symmetry. apply andb_true_intro; split; apply Z.leb_le;
      unfold int64_min, int64_max; lia.
  - destruct (binary_round_small true p) as (m & e & E & Hb & He & Hv).
    { apply digits2_pos_small. lia. }
    rewrite E. split; [exact Hb|].
    unfold trunc.
    assert (Ha : match e with
                 | Zneg q => Z.shiftr (Zpos m) (Zpos q)
                 | _ => Z.shiftl (Zpos m) e
                 end = Zpos p).
    { destruct e as [|q|q]; [exact Hv | lia | exact Hv]. }
    rewrite Ha.
    replace ((int64_min <=? - Zpos p) && (- Zpos p <=? int64_max)) with true;
      [reflexivity|].
    symmetry. apply andb_true_intro; split; apply Z.leb_le;
      unfold int64_min, int64_max; lia.
Qed.

(** The unit scaling of the identity scenario leaves a count as it is. *)
Lemma scale_by_one (c : Z) :
  - 2 ^ 53 < c < 2 ^ 53 -> trunc (fmul (of_int c) one) = Ok c.
Proof.
  intros Hc. destruct (of_int_exact c Hc) as [Hv Ht].
  now rewrite fmul_one_r.
Qed.

(** ** Sums of float columns *)

Lemma pairwise_sum_eq (fuel : nat) (xs : list float) :
  pairwise_sum fuel xs
  = let n := List.length xs in
    if (n <? 8)%nat then fold_left fadd xs (S754_zero true)
    else if (n <=? 128)%nat then sum_blocks n (firstn 8 xs) (skipn 8 xs)
    else
      match fuel with
      | O => sum_blocks n (firstn 8 xs) (skipn 8 xs)
      | S fuel' =>
          let n2 := (n / 2 - (n / 2) mod 8)%nat in
          fadd (pairwise_sum fuel' (firstn n2 xs))
               (pairwise_sum fuel' (skipn n2 xs))
      end.
Proof. destruct fuel; reflexivity. Qed.

(** The fuel of [pairwise_sum] is never used up: any fuel that is at least
    the length of the column gives the same sum. *)
Lemma pairwise_sum_fuel (fuel fuel' : nat) (xs : list float) :
  (List.length xs <= fuel)%nat -> (List.length xs <= fuel')%nat ->
  pairwise_sum fuel xs = pairwise_sum fuel' xs.
Proof.
  revert fuel' xs.
  induction fuel as [|fuel IH]; intros fuel' xs H H';
    rewrite (pairwise_sum_eq _ xs), (pairwise_sum_eq fuel' xs); cbv zeta.
  - replace (List.length xs) with 0%nat by lia. reflexivity.
  - destruct (List.length xs <? 8)%nat eqn:E8; [reflexivity|].
    destruct (List.length xs <=? 128)%nat eqn:E128; [reflexivity|].
    apply Nat.leb_gt in E128.
    destruct fuel' as [|fuel']; [lia|].
    assert (Hn : (8 <= List.length xs / 2 - (List.length xs / 2) mod 8
                  <= List.length xs / 2)%nat).
    { pose proof (Nat.div_mod_eq (List.length xs / 2) 8).
      pose proof (Nat.mod_upper_bound (List.length xs / 2) 8).
      pose proof (Nat.div_mod_eq (List.length xs) 2).
      pose proof (Nat.mod_upper_bound (List.length xs) 2).
      lia. }
    assert (Hh : (List.length xs / 2 < List.length xs)%nat).
    { pose proof (Nat.div_mod_eq (List.length xs) 2). lia. }
    f_equal; apply IH; rewrite ?length_firstn, ?length_skipn; lia.
Qed.

(** ** Grouping *)

Lemma mapM_Forall2 {A B C : Type} (f : B -> Result C) (h : A -> B)
  (P : A -> C -> Prop) (l : list A) :
  (forall a, exists c, f (h a) = Ok c /\ P a c) ->
  exists cs, mapM f (map h l) = Ok cs /\ Forall2 P l cs.
Proof.
  intros H. induction l as [|a l (cs & E & HF)]; simpl.
  - exists []. split; [reflexivity | constructor].
  - destruct (H a) as (c & Ec & Pc).
    exists (c :: cs). rewrite Ec, E. split; [reflexivity|].
    now constructor.
Qed.

Lemma groupby_members {K : Type} (cmp : K -> K -> comparison)
  (key : PackagingData -> K) (rows : list PackagingData)
  (g : K * list PackagingData) :
  In g (groupby cmp key rows) -> snd g = members cmp key rows (fst g).
Proof.
  unfold groupby. intros H. apply in_map_iff in H.
  destruct H as (k & <- & _). reflexivity.
Qed.

Lemma groupby_keys {K : Type} (cmp : K -> K -> comparison)
  (key : PackagingData -> K) (rows : list PackagingData) :
  map fst (groupby cmp key rows) = group_keys cmp (map key rows).
Proof.
  unfold groupby. rewrite map_map. cbn [fst]. apply map_id.
Qed.

(** The count identities pass from the records to the sums over the
    integers. *)
Lemma zsum_identities (l : list PackagingData) :
  Forall count_identities l ->
  zsum (map total_waste l)
  = zsum (map total_produced l) - zsum (map total_returned l)
  /\ zsum (map total_returned l)
     = zsum (map total_reused l) + zsum (map total_recycled l)
  /\ 0 <= zsum (map total_reused l)
  /\ 0 <= zsum (map total_recycled l)
  /\ 0 <= zsum (map total_waste l).
Proof.
  induction 1 as [|r l Hr _ IH]; cbn [map].
  - rewrite !zsum_nil. lia.
  - rewrite !zsum_cons. unfold count_identities in Hr. lia.
Qed.

(** They pass to the int64 sums too, in int64 arithmetic; the sums are the
    exact ones, and the identities hold over the integers, when the
    produced units add up within the int64 range. *)
Lemma isum_identities (l : list PackagingData) :
  Forall count_identities l ->
  isum (map total_waste l)
  = isub (isum (map total_produced l)) (isum (map total_returned l))
  /\ isum (map total_returned l)
     = iadd (isum (map total_reused l)) (isum (map total_recycled l))
  /\ (zsum (map total_produced l) <= int64_max ->
      isum (map total_waste l)
      = isum (map total_produced l) - isum (map total_returned l)
      /\ isum (map total_returned l)
         = isum (map total_reused l) + isum (map total_recycled l)
      /\ 0 <= isum (map total_reused l) <= isum (map total_returned l)
      /\ 0 <= isum (map total_recycled l)).
Proof.
  intros H. destruct (zsum_identities l H) as (H1 & H2 & H3 & H4 & H5).
  unfold isum, isub, iadd.
  rewrite wrap_sub_l, wrap_sub_r, wrap_add_l, wrap_add_r, <- H1, <- H2.
  split; [reflexivity|]. split; [reflexivity|].
  intros Hp.
  rewrite !wrap_id by (unfold int64_min, int64_max in *; lia).
  lia.
Qed.

Lemma members_identities {K : Type} (cmp : K -> K -> comparison)
  (key : PackagingData -> K) (rows : list PackagingData) (k : K) :
  Forall count_identities rows ->
  Forall count_identities (members cmp key rows k).
Proof.
  intros H. apply Forall_forall. intros r Hr.
  apply filter_In in Hr. rewrite Forall_forall in H. now apply H.
Qed.

(** The rows of the aggregations of [models.py]: sums over the members of
    each group, and no [total_recycled] column. *)
Lemma agg_row_identities {K : Type} (cmp : K -> K -> comparison)
  (key : PackagingData -> K) (rows : list PackagingData)
  (g : K * list PackagingData) (row : AggRow K) :
  Forall count_identities rows ->
  In g (groupby cmp key rows) ->
  group_key row = fst g ->
  count_sums row
  = count_sums (agg DataProcessor.agg_counts DataProcessor.agg_moneys g) ->
  row_identities (members cmp key rows (group_key row)) row
  /\ row_count row Recycled = KeyError "total_recycled".
Proof.
  intros Hid Hg Hk Hc.
  rewrite Hk, <- (groupby_members cmp key rows g Hg).
  pose proof (members_identities cmp key rows (fst g) Hid) as Hm.
  rewrite <- (groupby_members cmp key rows g Hg) in Hm.
  destruct (isum_identities (snd g) Hm) as (H1 & H2 & H3).
  unfold row_identities, row_count. rewrite Hc. cbn.
  change (count_of Produced) with total_produced.
  change (count_of Returned) with total_returned.
  change (count_of Reused) with total_reused.
  change (count_of Waste) with total_waste.
  split; [|reflexivity].
  repeat (split; [reflexivity|]).
  split; [exact H1|]. split; [exact H2|].
  intros Hp. destruct (H3 Hp) as (H4 & H5 & H6 & _). auto.
Qed.

Lemma in_insert_row (x r : AggRow Z) (l : list (AggRow Z)) :
  In x (insert_row r l) <-> x = r \/ In x l.
Proof.
  induction l as [|r' l IH]; simpl.
  - intuition.
  - destruct (group_key r <=? group_key r'); simpl; intuition.
Qed.

Lemma in_sort_values (x : AggRow Z) (l : list (AggRow Z)) :
  In x (sort_values l) <-> In x l.
Proof.
  induction l as [|r l IH]; simpl; [reflexivity|].
  rewrite in_insert_row, IH. intuition.
Qed.

Lemma Forall2_Forall_r {A B : Type} (P : A -> B -> Prop) (Q : B -> Prop)
  (l : list A) (bs : list B) :
  Forall2 P l bs ->
  (forall a b, In a l -> P a b -> Q b) ->
  Forall Q bs.
Proof.
  induction 1 as [|a b l bs Hab _ IH]; intros H; constructor.
  - apply (H a); simpl; auto.
  - apply IH. intros a' b' Ha'. apply H. simpl; auto.
Qed.

Lemma get_facility_performance_rows (rows : list PackagingData) :
  exists out,
    DataProcessor.get_facility_performance (Table rows) = Ok out
    /\ Forall2 of_group
         (groupby pair_compare (fun r => (facility_id r, facility_name r))
            rows) out.
Proof.
  unfold DataProcessor.get_facility_performance.
  apply mapM_Forall2. intros g.
  eexists. split; [reflexivity|]. repeat split.
Qed.

Lemma get_packaging_performance_rows (rows : list PackagingData) :
  exists out,
    DataProcessor.get_packaging_performance (Table rows) = Ok out
    /\ Forall2 of_group (groupby String.compare packaging_type rows) out.
Proof.
  unfold DataProcessor.get_packaging_performance.
  apply mapM_Forall2. intros g.
  eexists. split; [reflexivity|]. repeat split.
Qed.

Lemma time_series_rows (rows : list PackagingData) :
  exists out,
    DataProcessor.get_time_series_data (Table rows) = Ok (sort_values out)
    /\ Forall2 of_group (groupby Z.compare date rows) out.
Proof.
  unfold DataProcessor.get_time_series_data.
  destruct (mapM_Forall2
              (fun row =>
                 row <- assign_rate ReuseRate Reused Produced row ;;
                 assign_rate WasteRate Waste Produced row)
              (agg DataProcessor.agg_counts DataProcessor.agg_moneys)
              of_group (groupby Z.compare date rows)) as (out & E & HF).
  { intros g. eexists. split; [reflexivity|]. repeat split. }
  exists out. cbn [bind]. rewrite E. split; [reflexivity | exact HF].
Qed.

Lemma of_group_identities {K : Type} (cmp : K -> K -> comparison)
  (key : PackagingData -> K) (rows : list PackagingData)
  (out : list (AggRow K)) :
  Forall count_identities rows ->
  Forall2 of_group (groupby cmp key rows) out ->
  Forall (fun row =>
            row_identities (members cmp key rows (group_key row)) row
            /\ row_count row Recycled = KeyError "total_recycled") out.
Proof.
  intros Hid HF. apply (Forall2_Forall_r _ _ _ _ HF).
  intros g row Hg (Hk & Hc & _).
  now apply (agg_row_identities cmp key rows g row).
Qed.

(** C2, as stated, fails: the rows of [get_facility_performance] carry the
    sums of produced, returned, reused and waste units only; they have no
    [total_recycled], so [total_returned = total_reused + total_recycled]
    cannot be read off a row. *)
Lemma aggregated_rows_lack_recycled :
  ~ (forall rows : list PackagingData,
        Forall count_identities rows ->
        exists out,
          DataProcessor.get_facility_performance (Table rows) = Ok out
          /\ Forall
               (fun row =>
                  exists p rt ru rc w,
                    row_count row Produced = Ok p
                    /\ row_count row Returned = Ok rt
                    /\ row_count row Reused = Ok ru
                    /\ row_count row Recycled = Ok rc
                    /\ row_count row Waste = Ok w
                    /\ w = p - rt
                    /\ rt = ru + rc)
               out).
Proof.
  intros H.
  destruct (H [glass_record 0 1000 800 560 240 200 zero zero])
    as (out & E & HF).
  { repeat constructor; simpl; lia. }
  destruct (get_facility_performance_rows
              [glass_record 0 1000 800 560 240 200 zero zero])
    as (out' & E' & HF').
  rewrite E in E'. injection E' as <-.
  inversion HF' as [|g row gs out0 (_ & Hc & _) _ Eg Eo]; subst.
  inversion HF as [|? ? (p & rt & ru & rc & w & _ & _ & _ & Hrc & _) _].
  subst. unfold row_count in Hrc. rewrite Hc in Hrc. cbn in Hrc.
  discriminate.
Qed.

(** C2, amended: for records that satisfy the count identities, every row
    of the facility, packaging-type and time-series aggregations carries
    the int64 sums of the produced, returned, reused and waste units of the
    records of its group, and no [total_recycled].  In int64 arithmetic
    its [total_waste] is [total_produced - total_returned] and its
    [total_returned] is its [total_reused] plus the recycled units of the
    records of the group; when the produced units of the group add up
    within the int64 range, both identities hold over the integers and the
    reused units are between 0 and the returned ones. *)
Theorem aggregated_rows_identities (rows : list PackagingData) :
  Forall count_identities rows ->
  (exists out,
      DataProcessor.get_facility_performance (Table rows) = Ok out
      /\ Forall
           (fun row =>
              row_identities
                (members pair_compare
                   (fun r => (facility_id r, facility_name r)) rows
                   (group_key row)) row
              /\ row_count row Recycled = KeyError "total_recycled") out)
  /\ (exists out,
         DataProcessor.get_packaging_performance (Table rows) = Ok out
         /\ Forall
              (fun row =>
                 row_identities
                   (members String.compare packaging_type rows
                      (group_key row)) row
                 /\ row_count row Recycled = KeyError "total_recycled") out)
  /\ (exists out,
         DataProcessor.get_time_series_data (Table rows) = Ok out
         /\ Forall
              (fun row =>
                 row_identities
                   (members Z.compare date rows (group_key row)) row
                 /\ row_count row Recycled = KeyError "total_recycled") out).
Proof.
  intros Hid. split; [|split].
  - destruct (get_facility_performance_rows rows) as (out & E & HF).
    exists out. split; [exact E|]. now apply of_group_identities.
  - destruct (get_packaging_performance_rows rows) as (out & E & HF).
    exists out. split; [exact E|]. now apply of_group_identities.
  - destruct (time_series_rows rows) as (out & E & HF).
    exists (sort_values out). split; [exact E|].
    apply Forall_forall. intros row Hrow.
    apply (proj1 (in_sort_values row out)) in Hrow.
    pose proof (of_group_identities Z.compare date rows out Hid HF) as HQ.
    rewrite Forall_forall in HQ. now apply HQ.
Qed.

Lemma aggregated_rows_identities_witness :
  let rows := [glass_record 0 1000 800 560 240 200 zero zero;
               glass_record 1 500 400 279 121 100 zero zero] in
  (exists out,
      DataProcessor.get_facility_performance (Table rows) = Ok out
      /\ Forall
           (fun row =>
              row_identities
                (members pair_compare
                   (fun r => (facility_id r, facility_name r)) rows
                   (group_key row)) row
              /\ row_count row Recycled = KeyError "total_recycled") out)
  /\ (exists out,
         DataProcessor.get_packaging_performance (Table rows) = Ok out
         /\ Forall
              (fun row =>
                 row_identities
                   (members String.compare packaging_type rows
                      (group_key row)) row
                 /\ row_count row Recycled = KeyError "total_recycled") out)
  /\ (exists out,
         DataProcessor.get_time_series_data (Table rows) = Ok out
         /\ Forall
              (fun row =>
                 row_identities
                   (members Z.compare date rows (group_key row)) row
                 /\ row_count row Recycled = KeyError "total_recycled") out).
Proof.
  apply (aggregated_rows_identities
           [glass_record 0 1000 800 560 240 200 zero zero;
            glass_record 1 500 400 279 121 100 zero zero]).
  repeat constructor; simpl; lia.
Defined.

(** ** The time series *)

Lemma in_insert_key (x k : Z) (ks : list Z) :
  In x (insert_key Z.compare k ks) <-> x = k \/ In x ks.
Proof.
  induction ks as [|k' ks IH]; simpl.
  - intuition.
  - destruct (Z.compare_spec k k') as [->|Hlt|Hgt]; simpl.
    + intuition.
    + intuition.
    + rewrite IH. intuition.
Qed.

Lemma in_group_keys (x : Z) (ks : list Z) :
  In x (group_keys Z.compare ks) <-> In x ks.
Proof.
  induction ks as [|k ks IH]; simpl; [reflexivity|].
  rewrite in_insert_key, IH. intuition.
Qed.

Lemma insert_key_sorted (k : Z) (ks : list Z) :
  StronglySorted Z.lt ks -> StronglySorted Z.lt (insert_key Z.compare k ks).
Proof.
  induction 1 as [|k' ks Hs IH Hall]; simpl.
  - repeat constructor.
  - destruct (Z.compare_spec k k') as [->|Hlt|Hgt].
    + now constructor.
    + constructor; [now constructor|].
      constructor; [exact Hlt|].
      eapply Forall_impl; [|exact Hall]. simpl. intros; lia.
    + constructor; [exact IH|].
      apply Forall_forall. intros x Hx. apply in_insert_key in Hx.
      destruct Hx as [->|Hx]; [lia|].
      rewrite Forall_forall in Hall. now apply Hall.
Qed.

Lemma group_keys_sorted (ks : list Z) :
  StronglySorted Z.lt (group_keys Z.compare ks).
Proof.
  induction ks as [|k ks IH]; simpl; [constructor|].
  now apply insert_key_sorted.
Qed.

Lemma strictly_sorted_NoDup (ks : list Z) :
  StronglySorted Z.lt ks -> NoDup ks.
Proof.
  induction 1 as [|k ks Hs IH Hall]; constructor; [|exact IH].
  intros Hin. rewrite Forall_forall in Hall. specialize (Hall k Hin). lia.
Qed.

(** Sorting rows whose keys already ascend changes nothing. *)
Lemma sort_values_sorted (l : list (AggRow Z)) :
  StronglySorted Z.lt (map group_key l) -> sort_values l = l.
Proof.
  induction l as [|r l IH]; cbn [map]; intros H; [reflexivity|].
  inversion H as [|? ? Hs Hall]; subst.
  cbn [sort_values fold_right]. fold (sort_values l). rewrite (IH Hs).
  destruct l as [|r' l]; [reflexivity|].
  cbn [insert_row]. cbn [map] in Hall.
  inversion Hall as [|? ? Hlt _]; subst.
  replace (group_key r <=? group_key r') with true; [reflexivity|].
  symmetry. apply Z.leb_le. lia.
Qed.

Lemma of_group_keys {K : Type} (gs : list (K * list PackagingData))
  (out : list (AggRow K)) :
  Forall2 of_group gs out -> map group_key out = map fst gs.
Proof.
  induction 1 as [|g row gs out (Hk & _) _ IH]; cbn [map];
    [reflexivity | now rewrite Hk, IH].
Qed.

(** C8: for every record collection (a frame with its columns),
    [get_time_series_data] returns rows whose dates ascend strictly, so
    that no date occurs twice, and the dates of the rows are exactly the
    dates that occur in the input. *)
Theorem time_series_dates_ascending (rows : list PackagingData) :
  exists out,
    DataProcessor.get_time_series_data (Table rows) = Ok out
    /\ StronglySorted Z.lt (map group_key out)
    /\ NoDup (map group_key out)
    /\ (forall d, In d (map group_key out) <-> In d (map date rows)).
Proof.
  destruct (time_series_rows rows) as (out & E & HF).
  assert (Hk : map group_key out = group_keys Z.compare (map date rows))
    by now rewrite (of_group_keys _ _ HF), groupby_keys.
  assert (Hs : StronglySorted Z.lt (map group_key out))
    by (rewrite Hk; apply group_keys_sorted).
  exists (sort_values out). rewrite (sort_values_sorted out Hs) in *.
  split; [exact E|]. split; [exact Hs|].
  split; [now apply strictly_sorted_NoDup|].
  intros d. rewrite Hk. apply in_group_keys.
Qed.

(** ** [calculate_kpis] *)

(** C9: the [efficiency_score] that [calculate_kpis] returns is 0.4 times
    the [reuse_rate] plus 0.3 times (100 minus the [waste_rate]) plus 0.3
    times the [recovery_rate] of the same [KPIMetrics] value, in binary64
    arithmetic and with the sums taken from left to right. *)
Theorem efficiency_score_formula (rows : list PackagingData) :
  exists k,
    DataProcessor.calculate_kpis (Table rows) = Ok k
    /\ efficiency_score k
       = fadd (fadd (fmul (dec 4 1) (reuse_rate k))
                    (fmul (dec 3 1) (fsub (of_int 100) (waste_rate k))))
              (fmul (dec 3 1) (recovery_rate k)).
Proof.
  eexists. split; [reflexivity|].
  cbn [efficiency_score reuse_rate waste_rate recovery_rate].
  now rewrite (fmul_comm (dec 4 1)), !(fmul_comm (dec 3 1)).
Qed.

(** The rates of [calculate_kpis] are guarded: when nothing was produced
    they are 0. *)
Lemma calculate_kpis_zero_production (rows : list PackagingData) :
  isum (map total_produced rows) <= 0 ->
  exists k,
    DataProcessor.calculate_kpis (Table rows) = Ok k
    /\ reuse_rate k = zero /\ waste_rate k = zero /\ recovery_rate k = zero.
Proof.
  intros H. eexists. split; [reflexivity|].
  cbn [reuse_rate waste_rate recovery_rate].
  unfold DataProcessor.guarded_rate.
  change (count_of Produced) with total_produced.
  replace (0 <? isum (map total_produced rows)) with false
    by (symmetry; apply Z.ltb_ge; exact H).
  repeat split.
Qed.

(** C6, as stated, fails: over no record [calculate_kpis] returns an
    [efficiency_score] of 30.0, not 0. *)
Lemma empty_collection_efficiency_not_zero :
  ~ (exists k,
        DataProcessor.calculate_kpis (Table []) = Ok k
        /\ feqb (reuse_rate k) zero = true
        /\ feqb (waste_rate k) zero = true
        /\ feqb (recovery_rate k) zero = true
        /\ feqb (co2_saved_total k) zero = true
        /\ feqb (cost_savings_total k) zero = true
        /\ feqb (efficiency_score k) zero = true).
Proof.
  intros (k & E & _ & _ & _ & _ & _ & H).
  vm_compute in E. injection E as <-. vm_compute in H. discriminate.
Qed.

(** C6, amended: over a frame with the record columns and no row,
    [calculate_kpis] returns the three rates and the two totals 0 and an
    [efficiency_score] of 30.0, and every aggregation returns no row; none
    of the calls raises. *)
Theorem empty_collection_results :
  DataProcessor.calculate_kpis (Table [])
  = Ok {| reuse_rate := zero;
          waste_rate := zero;
          recovery_rate := zero;
          co2_saved_total := zero;
          cost_savings_total := zero;
          efficiency_score := of_int 30 |}
  /\ DataProcessor.get_facility_performance (Table []) = Ok []
  /\ DataProcessor.get_packaging_performance (Table []) = Ok []
  /\ DataProcessor.get_time_series_data (Table []) = Ok []
  /\ create_packaging_breakdown (Table []) = Ok [].
Proof. repeat split; vm_compute; reflexivity. Qed.

(** The frame [DataProcessor([])] builds from an empty list has no column:
    [calculate_kpis] and the aggregations raise [KeyError] on it. *)
Lemma empty_list_raises :
  DataProcessor.calculate_kpis (DataProcessor._to_dataframe [])
  = KeyError "total_produced"
  /\ DataProcessor.get_facility_performance (DataProcessor._to_dataframe [])
     = KeyError "facility_id"
  /\ DataProcessor.get_time_series_data (DataProcessor._to_dataframe [])
     = KeyError "date".
Proof. repeat split. Qed.

(** C7, at the failing input: for a group in which nothing was produced,
    the rates that [get_facility_performance] and
    [create_packaging_breakdown] assign are NaN (0/0), not 0: the division
    is not guarded as it is in [calculate_kpis]. *)
Theorem group_rates_of_zero_production :
  (exists row,
      DataProcessor.get_facility_performance
        (Table [glass_record 0 0 0 0 0 0 zero zero]) = Ok [row]
      /\ row_count row Produced = Ok 0
      /\ row_rate row ReuseRate = Some S754_nan
      /\ row_rate row WasteRate = Some S754_nan
      /\ row_rate row RecoveryRate = Some S754_nan)
  /\ (exists row,
         create_packaging_breakdown
           (Table [glass_record 0 0 0 0 0 0 zero zero]) = Ok [row]
         /\ row_count row Produced = Ok 0
         /\ row_rate row ReuseRate = Some S754_nan
         /\ row_rate row WasteRate = Some S754_nan
         /\ row_rate row RecoveryRate = Some S754_nan).
Proof.
  split; eexists; (split; [vm_compute; reflexivity|]); repeat split.
Qed.

(** ** The scenario engine and its store *)

Lemma frame_at_table_bound (s : store) (b : loc) (rows : list PackagingData) :
  frame_at s b = Table rows -> (b < List.length s)%nat.
Proof.
  intros H. destruct (Nat.lt_ge_cases b (List.length s)) as [|Hge]; auto.
  unfold frame_at in H. rewrite nth_overflow in H by exact Hge. discriminate.
Qed.

(** [run_scenario] on a frame with columns.  When both conversions succeed
    the result is [scenario_result] and the store gains exactly one object,
    the projected frame; when one of them raises, the store has gained the
    copy as it was when the conversion was attempted. *)
Lemma run_scenario_table (s : store) (b : loc) (rows : list PackagingData)
  (ri wr : float) :
  frame_at s b = Table rows ->
  run_scenario {| base_data := b |} ri wr s
  = match scaled (fadd (of_int 1) ri) (map total_reused rows) with
    | Ok reused =>
        match scaled (fsub (of_int 1) wr) (map total_waste rows) with
        | Ok waste =>
            let rows' := map2 (fun r p => projected r (fst p) (snd p)) rows
                              (combine reused waste) in
            (Ok (scenario_result rows rows'), s ++ [Table rows'])
        | KeyError c =>
            (KeyError c, s ++ [Table (map2 (set_count Reused) reused rows)])
        | IntCastingNaNError =>
            (IntCastingNaNError,
             s ++ [Table (map2 (set_count Reused) reused rows)])
        end
    | KeyError c => (KeyError c, s ++ [Table rows])
    | IntCastingNaNError => (IntCastingNaNError, s ++ [Table rows])
    end.
Proof.
  intros Hrows.
  pose proof (frame_at_table_bound s b rows Hrows) as Hb.
  unfold run_scenario, bindM, copy, read_counts, read_moneys, write_counts,
    write_moneys, deref, lift, ret.
  cbn [base_data].
  rewrite Hrows.
  rewrite ?frame_at_new. cbn [counts].
  change (map (count_of Reused) rows) with (map total_reused rows).
  destruct (scaled (fadd (of_int 1) ri) (map total_reused rows))
    as [reused|c|] eqn:E1; [|reflexivity|reflexivity].
  apply scaled_length in E1. rewrite length_map in E1.
  destruct (zipped rows reused E1) as (l1 & -> & ->). clear E1.
  step_store Hb Hrows.
  cbn [count_of set_count total_waste].
  destruct (scaled (fsub (of_int 1) wr) (map (fun x => total_waste (fst x)) l1))
    as [waste|c|] eqn:E2; [|reflexivity|reflexivity].
  apply scaled_length in E2. rewrite length_map in E2.
  destruct (zipped l1 waste E2) as (l2 & -> & ->). clear E2.
  step_store Hb Hrows.
  cbv zeta.
  rewrite (map_ext
             (fun a => projected (fst (fst a)) (fst (snd (fst a), snd a))
                                 (snd (snd (fst a), snd a)))
             (fun a => projected (fst (fst a)) (snd (fst a)) (snd a)))
    by reflexivity.
  reflexivity.
Qed.

(** Whatever the base frame is, and whether the run returns or raises, a
    run only adds one object to the store. *)
Lemma run_scenario_extends (s : store) (b : loc) (ri wr : float) :
  exists df, snd (run_scenario {| base_data := b |} ri wr s) = s ++ [df].
Proof.
  destruct (frame_at s b) as [|rows] eqn:Hrows.
  - exists NoColumns.
    unfold run_scenario, bindM, copy, read_counts.
    cbn [base_data]. rewrite Hrows, frame_at_new. reflexivity.
  - rewrite (run_scenario_table s b rows ri wr Hrows).
    destruct (scaled (fadd (of_int 1) ri) (map total_reused rows));
      [|eexists; reflexivity ..].
    destruct (scaled (fsub (of_int 1) wr) (map total_waste rows));
      eexists; reflexivity.
Qed.

(** What a run returns: [KeyError] on a frame without columns,
    [IntCastingNaNError] when a conversion raises, and the result computed
    from the base rows and the projected rows otherwise. *)
Lemma run_scenario_result (s : store) (b : loc) (ri wr : float) :
  fst (run_scenario {| base_data := b |} ri wr s)
  = match frame_at s b with
    | NoColumns => KeyError "total_reused"
    | Table rows =>
        rows' <- project_rows ri wr rows ;; Ok (scenario_result rows rows')
    end.
Proof.
  destruct (frame_at s b) as [|rows] eqn:Hrows.
  - unfold run_scenario, bindM, copy, read_counts. cbn [base_data].
    rewrite Hrows, frame_at_new. reflexivity.
  - rewrite (run_scenario_table s b rows ri wr Hrows).
    unfold project_rows.
    destruct (scaled (fadd (of_int 1) ri) (map total_reused rows));
      [|reflexivity ..].
    now destruct (scaled (fsub (of_int 1) wr) (map total_waste rows)).
Qed.

Lemma run_scenario_ok (s : store) (b : loc) (rows rows' : list PackagingData)
  (ri wr : float) :
  frame_at s b = Table rows ->
  project_rows ri wr rows = Ok rows' ->
  run_scenario {| base_data := b |} ri wr s
  = (Ok (scenario_result rows rows'), s ++ [Table rows']).
Proof.
  intros Hrows H.
  rewrite (run_scenario_table s b rows ri wr Hrows).
  unfold project_rows in H.
  destruct (scaled (fadd (of_int 1) ri) (map total_reused rows));
    try discriminate.
  destruct (scaled (fsub (of_int 1) wr) (map total_waste rows));
    try discriminate.
  cbn [bind] in H. injection H as <-. reflexivity.
Qed.

(** A whole session on a frame with columns. *)
Lemma scenario_fst (rows : list PackagingData) (ri wr : float) :
  fst (scenario (Table rows) ri wr)
  = (rows' <- project_rows ri wr rows ;; Ok (scenario_result rows rows')).
Proof.
  unfold scenario, __init__, bindM, copy, ret. cbn [List.length app fst].
  now rewrite run_scenario_result.
Qed.

Lemma scenario_ok (rows rows' : list PackagingData) (ri wr : float) :
  project_rows ri wr rows = Ok rows' ->
  scenario (Table rows) ri wr
  = (Ok (scenario_result rows rows'), [Table rows; Table rows; Table rows']).
Proof.
  intros H.
  unfold scenario, __init__, bindM, copy, ret. cbn [List.length app fst].
  now rewrite (run_scenario_ok _ 1%nat rows rows' ri wr).
Qed.

Lemma simulated_data_ok (rows rows' : list PackagingData) (ri wr : float) :
  project_rows ri wr rows = Ok rows' ->
  simulated_data (Table rows) ri wr = Table rows'.
Proof.
  intros H. unfold simulated_data. now rewrite (scenario_ok rows rows').
Qed.

Lemma forallb_map' {A B : Type} (f : A -> B) (p : B -> bool) (l : list A) :
  forallb p (map f l) = forallb (fun a => p (f a)) l.
Proof. induction l as [|a l IH]; simpl; [reflexivity | now rewrite IH]. Qed.

(** The conversions raise exactly when a scaled count is not a number, and
    then with [IntCastingNaNError]. *)
Lemma project_rows_cases (ri wr : float) (rows : list PackagingData) :
  (scaling_is_finite ri wr rows = true
   /\ exists rows', project_rows ri wr rows = Ok rows')
  \/ (scaling_is_finite ri wr rows = false
      /\ project_rows ri wr rows = IntCastingNaNError).
Proof.
  unfold scaling_is_finite, project_rows.
  rewrite <- (forallb_map' total_reused
                (fun x => is_finite (fmul (of_int x) (fadd (of_int 1) ri)))).
  rewrite <- (forallb_map' total_waste
                (fun x => is_finite (fmul (of_int x) (fsub (of_int 1) wr)))).
  destruct (scaled_cases (fadd (of_int 1) ri) (map total_reused rows))
    as [(-> & reused & ->)|(-> & ->)]; [|now right].
  destruct (scaled_cases (fsub (of_int 1) wr) (map total_waste rows))
    as [(-> & waste & ->)|(-> & ->)]; [|now right].
  left. cbn [bind andb]. eauto.
Qed.

Lemma project_rows_finite (ri wr : float) (rows : list PackagingData) :
  scaling_is_finite ri wr rows = true ->
  exists rows', project_rows ri wr rows = Ok rows'.
Proof.
  intros H. destruct (project_rows_cases ri wr rows) as [(_ & E)|(Hf & _)];
    [exact E | congruence].
Qed.

(** What the projected rows are, row by row. *)
Lemma project_rows_Forall2 (ri wr : float) (rows rows' : list PackagingData) :
  project_rows ri wr rows = Ok rows' ->
  Forall2
    (fun r r' =>
       exists reused waste,
         trunc (fmul (of_int (total_reused r)) (fadd (of_int 1) ri)) = Ok reused
         /\ trunc (fmul (of_int (total_waste r)) (fsub (of_int 1) wr))
            = Ok waste
         /\ r' = projected r reused waste)
    rows rows'.
Proof.
  unfold project_rows, scaled, astype_int. intros H.
  destruct (mapM trunc (map _ (map total_reused rows))) as [reused| |] eqn:E1;
    try discriminate.
  destruct (mapM trunc (map _ (map total_waste rows))) as [waste| |] eqn:E2;
    try discriminate.
  cbn [bind] in H. injection H as <-.
  apply mapM_Forall2_ok in E1, E2. rewrite map_map in E1, E2.
  revert reused waste E1 E2.
  induction rows as [|r rows IH]; intros reused waste E1 E2;
    inversion E1; inversion E2; subst; cbn [map2 combine map].
  - constructor.
  - constructor; [|now apply IH].
    eexists _, _. repeat split; eassumption.
Qed.

Lemma run_scenarios_frame (self : Engine) (params : list (float * float))
  (s : store) (l : loc) :
  (l < List.length s)%nat ->
  frame_at (run_scenarios self params s) l = frame_at s l.
Proof.
  revert s. induction params as [|[ri wr] params IH]; intros s Hl; simpl.
  - reflexivity.
  - destruct self as [b].
    destruct (run_scenario_extends s b ri wr) as [df E].
    rewrite E, IH by (rewrite length_app; simpl; lia).
    now apply frame_at_old.
Qed.

(** C10: [run_scenario] leaves the caller's frame and the engine's own
    [base_data] as they were: for a frame [caller] of the store, an engine
    built on it by [__init__] holds a copy of it, and after any number of
    [run_scenario] calls, with any parameters, both the caller's frame and
    the engine's [base_data] are still the frame the caller passed. *)
Theorem run_scenario_keeps_base_data (s : store) (caller : loc)
  (params : list (float * float)) :
  (caller < List.length s)%nat ->
  exists self s0,
    __init__ caller s = (Ok self, s0)
    /\ frame_at s0 caller = frame_at s caller
    /\ frame_at s0 (base_data self) = frame_at s caller
    /\ frame_at (run_scenarios self params s0) caller = frame_at s caller
    /\ frame_at (run_scenarios self params s0) (base_data self)
       = frame_at s caller.
Proof.
  intros Hc.
  exists {| base_data := List.length s |}, (s ++ [frame_at s caller]).
  split; [reflexivity|].
  assert (H0 : frame_at (s ++ [frame_at s caller]) caller = frame_at s caller)
    by now apply frame_at_old.
  assert (H1 : frame_at (s ++ [frame_at s caller]) (List.length s)
               = frame_at s caller) by apply frame_at_new.
  cbn [base_data].
  rewrite !run_scenarios_frame by (rewrite length_app; simpl; lia).
  auto.
Qed.

Lemma run_scenario_keeps_base_data_witness :
  let s := [Table [glass_record 0 1000 800 560 240 200 zero zero]] in
  exists self s0,
    __init__ 0%nat s = (Ok self, s0)
    /\ frame_at s0 0%nat = frame_at s 0%nat
    /\ frame_at s0 (base_data self) = frame_at s 0%nat
    /\ frame_at (run_scenarios self [(dec 15 2, dec 20 2); (zero, zero)] s0)
         0%nat = frame_at s 0%nat
    /\ frame_at (run_scenarios self [(dec 15 2, dec 20 2); (zero, zero)] s0)
         (base_data self) = frame_at s 0%nat.
Proof.
  apply (run_scenario_keeps_base_data
           [Table [glass_record 0 1000 800 560 240 200 zero zero]] 0%nat
           [(dec 15 2, dec 20 2); (zero, zero)]).
  simpl. lia.
Defined.

(** ** The worked example *)

Lemma project_worked_example (r : PackagingData) :
  total_reused r = 560 -> total_waste r = 200 -> total_returned r = 800 ->
  project_rows (dec 15 2) (dec 20 2) [r]
  = Ok [set_money CostSavings (fadd (cost_savings r) (dec 124 1))
          (set_money Co2Saved (fadd (co2_saved r) (of_int 62))
             (set_count Recycled 156
                (set_count Waste 160 (set_count Reused 644 r))))].
Proof.
  destruct r as [d fi fn ft pt p rt ru rc w c k la lo].
  cbn [total_reused total_waste total_returned]. intros -> -> ->.
  assert (E1 : trunc (fmul (of_int 560) (fadd (of_int 1) (dec 15 2)))
               = Ok 644) by (vm_compute; reflexivity).
  assert (E2 : trunc (fmul (of_int 200) (fsub (of_int 1) (dec 20 2)))
               = Ok 160) by (vm_compute; reflexivity).
  assert (E3 : fmul (of_int (iadd (isub 644 560) (isub 200 160))) (dec 5 1)
               = of_int 62) by (vm_compute; reflexivity).
  assert (E4 : fmul (of_int (iadd (isub 644 560) (isub 200 160))) (dec 10 2)
               = dec 124 1) by (vm_compute; reflexivity).
  assert (E5 : Z.max 0 (isub 800 644) = 156) by reflexivity.
  unfold project_rows, scaled, astype_int.
  cbn [map mapM total_reused total_waste].
  rewrite E1, E2. cbn [bind combine map2 fst snd].
  unfold projected, set_money, set_count.
  cbn [date facility_id facility_name facility_type packaging_type
       total_produced total_returned total_reused total_recycled total_waste
       co2_saved cost_savings latitude longitude].
  rewrite E3, E4, E5. reflexivity.
Qed.




(** With the savings a glass-bottle record carries (400.0 and 120.0), the
    cost delta of the worked example is [(120.0 + 12.4) - 120.0], which is
    12.400000000000006 and not 12.4 in binary64. *)
Lemma worked_example_cost_delta_rounding :
  exists res,
    fst (scenario (Table [glass_record 0 1000 800 560 240 200
                            (of_int 400) (of_int 120)])
                  (dec 15 2) (dec 20 2)) = Ok res
    /\ additional_co2_saved (improvements res) = of_int 62
    /\ additional_cost_savings (improvements res)
       = S754_finite false 6980579422424272 (-49)
    /\ dec 124 1 = S754_finite false 6980579422424269 (-49).
Proof.
  eexists. split; [vm_compute; reflexivity|].
  repeat split; vm_compute; reflexivity.
Qed.

(** ** Projected records *)

(** C4, as stated, fails: in the worked example the projected record has
    waste 160 with produced 1000 and returned 800 unchanged, so its
    [total_waste] is not [total_produced - total_returned]. *)
Lemma projected_identities_fail :
  ~ (forall (rows : list PackagingData) (ri wr : float),
        Forall count_identities rows ->
        exists rows',
          simulated_data (Table rows) ri wr = Table rows'
          /\ Forall2
               (fun r r' =>
                  total_waste r' = total_produced r' - total_returned r'
                  /\ total_returned r' = total_reused r' + total_recycled r'
                  /\ total_produced r' = total_produced r
                  /\ total_returned r' = total_returned r)
               rows rows').
Proof.
  intros H.
  destruct (H [glass_record 0 1000 800 560 240 200 zero zero]
              (dec 15 2) (dec 20 2)) as (rows' & E & HF).
  { repeat constructor; simpl; lia. }
  rewrite (simulated_data_ok _ _ _ _
             (project_worked_example
                (glass_record 0 1000 800 560 240 200 zero zero)
                eq_refl eq_refl eq_refl)) in E.
  injection E as <-.
  inversion HF as [|? ? ? ? (Hw & _) _]; subst.
  simpl in Hw. lia.
Qed.

(** C4, amended: [run_scenario] raises [IntCastingNaNError] when a scaled
    count is a NaN or an infinity, and otherwise builds a projected frame
    in which every record keeps [total_produced] and [total_returned] of
    its base record and has [total_recycled] equal to [max(0, total_returned
    - total_reused)], the difference being taken in int64 arithmetic.
    When that difference does not wrap around, [total_returned =
    total_reused + total_recycled] holds in the projected record exactly
    when its [total_reused] does not exceed [total_returned]; and for a
    base record with [total_waste = total_produced - total_returned], that
    identity holds in the projected record exactly when its [total_waste]
    is the base one. *)
Theorem projected_records_shape (rows : list PackagingData) (ri wr : float) :
  match fst (scenario (Table rows) ri wr) with
  | Ok _ =>
      scaling_is_finite ri wr rows = true
      /\ exists rows',
           simulated_data (Table rows) ri wr = Table rows'
           /\ Forall2
                (fun r r' =>
                   total_produced r' = total_produced r
                   /\ total_returned r' = total_returned r
                   /\ total_recycled r'
                      = Z.max 0 (isub (total_returned r') (total_reused r'))
                   /\ (int64_min <= total_returned r' - total_reused r'
                                 <= int64_max ->
                       (total_returned r'
                        = total_reused r' + total_recycled r'
                        <-> total_reused r' <= total_returned r'))
                   /\ (total_waste r = total_produced r - total_returned r ->
                       (total_waste r' = total_produced r' - total_returned r'
                        <-> total_waste r' = total_waste r)))
                rows rows'
  | KeyError _ => False
  | IntCastingNaNError => scaling_is_finite ri wr rows = false
  end.
Proof.
  rewrite scenario_fst.
  destruct (project_rows_cases ri wr rows) as [(Hf & rows' & E)|(Hf & E)];
    rewrite E; cbn [bind]; [|exact Hf].
  split; [exact Hf|].
  exists rows'. split; [now apply simulated_data_ok|].
  apply project_rows_Forall2 in E.
  eapply Forall2_impl; [|exact E].
  intros r r' (reused & waste & _ & _ & ->).
  destruct r as [d fi fn ft pt p rt ru rc w c k la lo].
  unfold projected.
  cbn [total_produced total_returned total_reused total_recycled total_waste].
  split; [reflexivity|]. split; [reflexivity|]. split; [reflexivity|].
  split.
  - intros Hr. unfold isub. rewrite wrap_id by exact Hr. lia.
  - intros Hw. lia.
Qed.

(** The projected [total_recycled] is never negative, whenever the run
    returns. *)
Lemma projected_recycled_nonneg (rows : list PackagingData) (ri wr : float) :
  scaling_is_finite ri wr rows = true ->
  exists rows',
    simulated_data (Table rows) ri wr = Table rows'
    /\ Forall (fun r' => 0 <= total_recycled r') rows'.
Proof.
  intros Hf. destruct (project_rows_finite ri wr rows Hf) as [rows' E].
  exists rows'. split; [now apply simulated_data_ok|].
  apply project_rows_Forall2 in E. clear Hf.
  induction E as [|r r' rows0 rows0' (reused & waste & _ & _ & ->) _ IH];
    [constructor|].
  constructor; [|exact IH].
  unfold projected. cbn [total_recycled]. lia.
Qed.

(** C5, at the failing input: with [waste_reduction = 2.0] the record of
    the worked example is projected to a [total_waste] of -200; the
    projected waste is not clamped at 0. *)
Theorem projected_waste_not_clamped :
  counts (simulated_data
            (Table [glass_record 0 1000 800 560 240 200
                      (of_int 400) (of_int 120)])
            zero (of_int 2)) Waste
  = Ok [-200].
Proof. vm_compute. reflexivity. Qed.

(** ** The identity scenario *)

Lemma feqb_refl (x : float) : is_finite x = true -> feqb x x = true.
Proof.
  destruct x as [s|s| |s m e]; simpl; intros H; try discriminate.
  - reflexivity.
  - unfold feqb, SFeqb, SFcompare.
    rewrite Z.compare_refl.
    change (Pos.compare_cont Eq m m) with (m ?= m)%positive.
    rewrite Pos.compare_refl. now destruct s.
Qed.

Lemma one_plus_zero : fadd (of_int 1) zero = one.
Proof. reflexivity. Qed.

Lemma one_minus_zero : fsub (of_int 1) zero = one.
Proof. reflexivity. Qed.

(** Sums do not tell the two zeros apart. *)
Lemma same_refl (x : float) : same_but_zero_sign x x.
Proof. destruct x; simpl; auto. Qed.

Lemma fadd_zero_same (x : float) : same_but_zero_sign (fadd x zero) x.
Proof. destruct x as [[]|[]| |s m e]; simpl; auto. Qed.

Lemma fadd_same (x x' y y' : float) :
  same_but_zero_sign x x' -> same_but_zero_sign y y' ->
  same_but_zero_sign (fadd x y) (fadd x' y').
Proof.
  intros Hx Hy.
  destruct x as [sx|sx| |sx mx ex], x' as [sx'|sx'| |sx' mx' ex'];
    simpl in Hx; try discriminate Hx; try (inversion Hx; subst; clear Hx);
    destruct y as [sy|sy| |sy my ey], y' as [sy'|sy'| |sy' my' ey'];
    simpl in Hy; try discriminate Hy; try (inversion Hy; subst; clear Hy);
    try apply same_refl.
  destruct sx, sx', sy, sy'; exact I.
Qed.

Lemma same_is_nan (x y : float) :
  same_but_zero_sign x y -> is_nan x = is_nan y.
Proof.
  destruct x, y; simpl; intros H; try discriminate H; reflexivity.
Qed.

Lemma fold_same (xs ys : list float) (a b : float) :
  Forall2 same_but_zero_sign xs ys -> same_but_zero_sign a b ->
  same_but_zero_sign (fold_left fadd xs a) (fold_left fadd ys b).
Proof.
  intros H. revert a b.
  induction H as [|x y xs ys Hxy _ IH]; intros a b Hab; simpl; auto.
  apply IH. now apply fadd_same.
Qed.

Lemma Forall2_firstn {A B : Type} (R : A -> B -> Prop) (n : nat)
  (xs : list A) (ys : list B) :
  Forall2 R xs ys -> Forall2 R (firstn n xs) (firstn n ys).
Proof.
  intros H. revert n.
  induction H as [|x y xs ys Hxy _ IH]; intros [|n]; simpl;
    constructor; auto.
Qed.

Lemma Forall2_skipn {A B : Type} (R : A -> B -> Prop) (n : nat)
  (xs : list A) (ys : list B) :
  Forall2 R xs ys -> Forall2 R (skipn n xs) (skipn n ys).
Proof.
  intros H. revert n.
  induction H as [|x y xs ys Hxy H IH]; intros [|n]; simpl;
    try constructor; auto.
Qed.

Lemma map2_same (r r' xs xs' : list float) :
  Forall2 same_but_zero_sign r r' -> Forall2 same_but_zero_sign xs xs' ->
  Forall2 same_but_zero_sign (map2 fadd r xs) (map2 fadd r' xs').
Proof.
  intros H. revert xs xs'.
  induction H as [|a a' r r' Ha _ IH]; intros xs xs' Hx; simpl;
    [constructor|].
  destruct Hx as [|x x' xs xs' Hxx Hx]; constructor.
  - now apply fadd_same.
  - now apply IH.
Qed.

Lemma add8_same (r r' : list float) :
  Forall2 same_but_zero_sign r r' ->
  same_but_zero_sign (add8 r) (add8 r').
Proof.
  intros H.
  do 9 (destruct H as [|? ? ? ? ? H];
        [try (apply fold_same; [repeat constructor; assumption | exact I])
        |]).
  - unfold add8. repeat apply fadd_same; assumption.
  - apply fold_same; [repeat constructor; assumption | exact I].
Qed.

Lemma sum_blocks_same (fuel : nat) (r r' xs xs' : list float) :
  Forall2 same_but_zero_sign r r' -> Forall2 same_but_zero_sign xs xs' ->
  same_but_zero_sign (sum_blocks fuel r xs) (sum_blocks fuel r' xs').
Proof.
  revert r r' xs xs'.
  induction fuel as [|fuel IH]; intros r r' xs xs' Hr Hx; cbn [sum_blocks].
  - apply fold_same; [exact Hx | now apply add8_same].
  - rewrite <- (Forall2_length Hx).
    destruct (8 <=? List.length xs)%nat.
    + apply IH; [apply map2_same; [exact Hr | now apply Forall2_firstn]
                | now apply Forall2_skipn].
    + apply fold_same; [exact Hx | now apply add8_same].
Qed.

Lemma pairwise_sum_same (fuel : nat) (xs xs' : list float) :
  Forall2 same_but_zero_sign xs xs' ->
  same_but_zero_sign (pairwise_sum fuel xs) (pairwise_sum fuel xs').
Proof.
  revert xs xs'.
  induction fuel as [|fuel IH]; intros xs xs' Hx;
    rewrite (pairwise_sum_eq _ xs), (pairwise_sum_eq _ xs');
    cbv zeta; rewrite <- (Forall2_length Hx);
    destruct (List.length xs <? 8)%nat;
    try (apply fold_same; [exact Hx | exact I]);
    destruct (List.length xs <=? 128)%nat;
    try (apply sum_blocks_same;
         [now apply Forall2_firstn | now apply Forall2_skipn]).
  apply fadd_same; apply IH;
    [now apply Forall2_firstn | now apply Forall2_skipn].
Qed.

Lemma fsum_same (xs xs' : list float) :
  Forall2 same_but_zero_sign xs xs' ->
  same_but_zero_sign (fsum xs) (fsum xs').
Proof.
  intros H. unfold fsum. rewrite <- (Forall2_length H).
  apply fadd_same; [exact I|].
  apply pairwise_sum_same.
  induction H as [|x x' xs xs' Hx _ IH]; cbn [map]; constructor;
    [|exact IH].
  rewrite <- (same_is_nan x x' Hx).
  destruct (is_nan x); [exact I | exact Hx].
Qed.

(** Python's [==] does not tell them apart either, nor does a
    difference. *)
Lemma same_feqb (x y : float) :
  same_but_zero_sign x y -> is_finite y = true -> feqb x y = true.
Proof.
  intros H Hf.
  destruct x as [sx|sx| |sx mx ex], y as [sy|sy| |sy my ey];
    simpl in H; try discriminate H; try discriminate Hf.
  - reflexivity.
  - rewrite H. now apply feqb_refl.
Qed.

Lemma same_fsub_zero (x y : float) :
  same_but_zero_sign x y -> is_finite y = true ->
  feqb (fsub x y) zero = true.
Proof.
  intros H Hf.
  destruct x as [sx|sx| |sx mx ex], y as [sy|sy| |sy my ey];
    simpl in H; try discriminate H; try discriminate Hf.
  - now destruct sx, sy.
  - rewrite H, fsub_diag by reflexivity. reflexivity.
Qed.

(** With both parameters [0.0] every count within the 53 bits of a
    binary64 number is converted to itself. *)
Lemma scaled_one (column : list Z) :
  Forall (fun c => - 2 ^ 53 < c < 2 ^ 53) column ->
  scaled one column = Ok column.
Proof.
  unfold scaled, astype_int.
  induction 1 as [|c column Hc _ IH]; cbn [map mapM]; [reflexivity|].
  now rewrite scale_by_one, IH by exact Hc.
Qed.

Lemma project_rows_identity (rows : list PackagingData) :
  Forall exact_record rows ->
  project_rows zero zero rows = Ok (map kept rows).
Proof.
  intros H. unfold project_rows.
  rewrite one_plus_zero, one_minus_zero, !scaled_one.
  - cbn [bind]. f_equal. clear H.
    induction rows as [|r rows IH]; cbn [map combine map2 fst snd];
      [reflexivity | now rewrite IH].
  - rewrite Forall_map. eapply Forall_impl; [|exact H].
    now intros r [_ Hw].
  - rewrite Forall_map. eapply Forall_impl; [|exact H].
    now intros r [Hr _].
Qed.

Lemma kept_money (r : PackagingData) :
  same_but_zero_sign (co2_saved (kept r)) (co2_saved r)
  /\ same_but_zero_sign (cost_savings (kept r)) (cost_savings r).
Proof.
  unfold kept, projected, isub. cbn [co2_saved cost_savings].
  rewrite !Z.sub_diag.
  change (fmul (of_int (iadd (wrap 0) (wrap 0))) (dec 5 1)) with zero.
  change (fmul (of_int (iadd (wrap 0) (wrap 0))) (dec 10 2)) with zero.
  split; apply fadd_zero_same.
Qed.

Lemma kept_column {A : Type} (f : PackagingData -> A)
  (rows : list PackagingData) :
  (forall r, f (kept r) = f r) -> map f (map kept rows) = map f rows.
Proof. intros H. rewrite map_map. now apply map_ext. Qed.

Lemma kept_moneys (rows : list PackagingData) :
  Forall2 same_but_zero_sign
    (map co2_saved (map kept rows)) (map co2_saved rows)
  /\ Forall2 same_but_zero_sign
       (map cost_savings (map kept rows)) (map cost_savings rows).
Proof.
  induction rows as [|r rows [IH1 IH2]]; cbn [map];
    split; constructor; auto; apply kept_money.
Qed.

(** C3, as stated, fails: a count above 2^53 is not a binary64 number.
    With records of 2^53 + 1 and 1 reused units (all produced units
    returned and reused), the identity scenario projects the first count to
    2^53, and the projected reuse rate is 99.99999999999999 where the base
    one is 100.0. *)
Lemma identity_scenario_fails_on_large_counts :
  ~ (forall rows : list PackagingData,
        exists res,
          fst (scenario (Table rows) zero zero) = Ok res
          /\ kpis_eqb (projected_metrics res) (base_metrics res) = true
          /\ no_improvement (improvements res) = true).
Proof.
  intros H.
  destruct (H [glass_record 0 (2 ^ 53 + 1) (2 ^ 53 + 1) (2 ^ 53 + 1) 0 0
                 zero zero;
               glass_record 0 1 1 1 0 0 zero zero]) as (res & E & Hk & _).
  vm_compute in E. injection E as <-.
  vm_compute in Hk. discriminate.
Qed.

(** The deltas are not 0 either when a base total is not a number: with
    savings of [inf] the projected total equals the base one and their
    difference is NaN. *)
Lemma identity_scenario_infinite_savings :
  exists res,
    fst (scenario (Table [glass_record 0 1000 800 560 240 200
                            (S754_infinity false) (of_int 120)])
                  zero zero) = Ok res
    /\ kpis_eqb (projected_metrics res) (base_metrics res) = true
    /\ additional_co2_saved (improvements res) = S754_nan
    /\ no_improvement (improvements res) = false.
Proof.
  eexists. split; [vm_compute; reflexivity|].
  repeat split; vm_compute; reflexivity.
Qed.

(** C3, amended: for records whose reused and waste counts lie strictly
    between -2^53 and 2^53, [run_scenario(0.0, 0.0)] returns projected
    rates that are the base rates and projected totals that are the base
    totals, the sign of a zero apart; so, the base metrics being numbers
    (no NaN, no infinity), the projected metrics are equal ([==]) to the
    base metrics and every delta is equal to 0. *)
Theorem identity_scenario (rows : list PackagingData) :
  Forall exact_record rows ->
  exists res,
    fst (scenario (Table rows) zero zero) = Ok res
    /\ kpi_reuse_rate (projected_metrics res)
       = kpi_reuse_rate (base_metrics res)
    /\ kpi_waste_rate (projected_metrics res)
       = kpi_waste_rate (base_metrics res)
    /\ same_but_zero_sign (kpi_co2_saved (projected_metrics res))
                          (kpi_co2_saved (base_metrics res))
    /\ same_but_zero_sign (kpi_cost_savings (projected_metrics res))
                          (kpi_cost_savings (base_metrics res))
    /\ (finite_kpis (base_metrics res) = true ->
        kpis_eqb (projected_metrics res) (base_metrics res) = true
        /\ no_improvement (improvements res) = true).
Proof.
  intros H.
  rewrite scenario_fst, (project_rows_identity rows H). cbn [bind].
  eexists. split; [reflexivity|].
  unfold scenario_result, scenario_kpis.
  cbn [projected_metrics base_metrics improvements kpi_reuse_rate
       kpi_waste_rate kpi_co2_saved kpi_cost_savings].
  rewrite (kept_column total_produced), (kept_column total_reused),
    (kept_column total_waste) by reflexivity.
  destruct (kept_moneys rows) as [Hc Hk].
  apply fsum_same in Hc, Hk.
  split; [reflexivity|]. split; [reflexivity|].
  split; [exact Hc|]. split; [exact Hk|].
  unfold finite_kpis, kpis_eqb, no_improvement.
  cbn [kpi_reuse_rate kpi_waste_rate kpi_co2_saved kpi_cost_savings
       reuse_rate_improvement waste_rate_reduction additional_co2_saved
       additional_cost_savings].
  intros Hf.
  apply andb_prop in Hf. destruct Hf as [Hf H4].
  apply andb_prop in Hf. destruct Hf as [Hf H3].
  apply andb_prop in Hf. destruct Hf as [H1 H2].
  rewrite !feqb_refl, !fsub_diag by assumption.
  rewrite (same_feqb _ _ Hc H3), (same_feqb _ _ Hk H4).
  rewrite (same_fsub_zero _ _ Hc H3), (same_fsub_zero _ _ Hk H4).
  split; reflexivity.
Qed.

Lemma identity_scenario_witness :
  let rows := [glass_record 0 1000 800 560 240 200
                 (S754_zero true) (of_int 120)] in
  exists res,
    fst (scenario (Table rows) zero zero) = Ok res
    /\ kpi_reuse_rate (projected_metrics res)
       = kpi_reuse_rate (base_metrics res)
    /\ kpi_waste_rate (projected_metrics res)
       = kpi_waste_rate (base_metrics res)
    /\ same_but_zero_sign (kpi_co2_saved (projected_metrics res))
                          (kpi_co2_saved (base_metrics res))
    /\ same_but_zero_sign (kpi_cost_savings (projected_metrics res))
                          (kpi_cost_savings (base_metrics res))
    /\ (finite_kpis (base_metrics res) = true ->
        kpis_eqb (projected_metrics res) (base_metrics res) = true
        /\ no_improvement (improvements res) = true).
Proof.
  apply (identity_scenario
           [glass_record 0 1000 800 560 240 200
              (S754_zero true) (of_int 120)]).
  repeat constructor; simpl; lia.
Defined.

(** * Further properties of the engine *)

From Stdlib Require Import OrderedTypeEx.

(** ** [run_scenario] *)

(** X1: on a base frame without columns, as [pd.DataFrame()] is,
    [run_scenario] raises [KeyError] for [total_reused]; the store only
    gains the copy made before the first column access. *)
Theorem run_scenario_no_columns (s : store) (b : loc) (ri wr : float) :
  frame_at s b = NoColumns ->
  run_scenario {| base_data := b |} ri wr s
  = (KeyError "total_reused", s ++ [NoColumns]).
Proof.
  intros Hb.
  unfold run_scenario, bindM, copy, read_counts. cbn [base_data].
  rewrite Hb, frame_at_new. reflexivity.
Qed.

Lemma run_scenario_no_columns_witness :
  run_scenario {| base_data := 0%nat |} (dec 15 2) (dec 20 2) [NoColumns]
  = (KeyError "total_reused", [NoColumns] ++ [NoColumns]).
Proof.
  apply (run_scenario_no_columns [NoColumns] 0%nat (dec 15 2) (dec 20 2)).
  reflexivity.
Defined.

(** X2: when no conversion raises, the simulated frame has one row for
    each base row, in the same order, and each row keeps the date, the
    facility, the packaging type and the location of its base row: the
    scenario only rewrites the reused, recycled and waste counts and the
    two savings. *)
Theorem simulated_rows_keep_identity (rows : list PackagingData)
  (ri wr : float) :
  scaling_is_finite ri wr rows = true ->
  exists rows',
    simulated_data (Table rows) ri wr = Table rows'
    /\ Forall2
         (fun r r' =>
            date r' = date r
            /\ facility_id r' = facility_id r
            /\ facility_name r' = facility_name r
            /\ facility_type r' = facility_type r
            /\ packaging_type r' = packaging_type r
            /\ latitude r' = latitude r
            /\ longitude r' = longitude r)
         rows rows'.
Proof.
  intros Hf. destruct (project_rows_finite ri wr rows Hf) as [rows' E].
  exists rows'. split; [now apply simulated_data_ok|].
  apply project_rows_Forall2 in E.
  eapply Forall2_impl; [|exact E].
  intros r r' (reused & waste & _ & _ & ->). repeat split.
Qed.

Lemma simulated_rows_keep_identity_witness :
  let rows := [glass_record 0 1000 800 560 240 200 zero zero;
               glass_record 1 500 400 279 121 100 zero zero] in
  exists rows',
    simulated_data (Table rows) (dec 15 2) (dec 20 2) = Table rows'
    /\ Forall2
         (fun r r' =>
            date r' = date r
            /\ facility_id r' = facility_id r
            /\ facility_name r' = facility_name r
            /\ facility_type r' = facility_type r
            /\ packaging_type r' = packaging_type r
            /\ latitude r' = latitude r
            /\ longitude r' = longitude r)
         rows rows'.
Proof.
  apply (simulated_rows_keep_identity
           [glass_record 0 1000 800 560 240 200 zero zero;
            glass_record 1 500 400 279 121 100 zero zero]
           (dec 15 2) (dec 20 2)).
  vm_compute. reflexivity.
Defined.

(** X3: when no conversion raises, the recycled units of every simulated
    row are not negative; and where the int64 difference of its returned
    and reused units does not wrap around, its reused plus recycled units
    are the larger of its reused and of its returned units: the projection
    never accounts for fewer units than were returned. *)
Theorem simulated_recovery_covers_returned (rows : list PackagingData)
  (ri wr : float) :
  scaling_is_finite ri wr rows = true ->
  exists rows',
    simulated_data (Table rows) ri wr = Table rows'
    /\ Forall
         (fun r' =>
            0 <= total_recycled r'
            /\ (int64_min <= total_returned r' - total_reused r'
                          <= int64_max ->
                total_reused r' + total_recycled r'
                = Z.max (total_reused r') (total_returned r')
                /\ total_returned r' <= total_reused r' + total_recycled r'))
         rows'.
Proof.
  intros Hf. destruct (project_rows_finite ri wr rows Hf) as [rows' E].
  exists rows'. split; [now apply simulated_data_ok|].
  apply project_rows_Forall2 in E. clear Hf.
  induction E as [|r r' rows0 rows0' (reused & waste & _ & _ & ->) _ IH];
    [constructor|].
  constructor; [|exact IH].
  unfold projected.
  cbn [total_recycled total_reused total_returned].
  split; [lia|]. intros Hr.
  unfold isub. rewrite wrap_id by exact Hr. lia.
Qed.

Lemma simulated_recovery_covers_returned_witness :
  exists rows',
    simulated_data (Table [glass_record 0 1000 800 560 240 200 zero zero])
                   (of_int 1) (dec 20 2) = Table rows'
    /\ Forall
         (fun r' =>
            0 <= total_recycled r'
            /\ (int64_min <= total_returned r' - total_reused r'
                          <= int64_max ->
                total_reused r' + total_recycled r'
                = Z.max (total_reused r') (total_returned r')
                /\ total_returned r' <= total_reused r' + total_recycled r'))
         rows'.
Proof.
  apply (simulated_recovery_covers_returned
           [glass_record 0 1000 800 560 240 200 zero zero]
           (of_int 1) (dec 20 2)).
  vm_compute. reflexivity.
Defined.

(** X4: on a frame with columns and no row every metric of the result is
    0 and every delta is 0.0, whatever the parameters are. *)
Theorem scenario_on_empty_frame (ri wr : float) :
  fst (scenario (Table []) ri wr)
  = Ok {| base_metrics :=
            {| kpi_reuse_rate := zero; kpi_waste_rate := zero;
               kpi_co2_saved := zero; kpi_cost_savings := zero |};
          projected_metrics :=
            {| kpi_reuse_rate := zero; kpi_waste_rate := zero;
               kpi_co2_saved := zero; kpi_cost_savings := zero |};
          improvements :=
            {| reuse_rate_improvement := zero;
               waste_rate_reduction := zero;
               additional_co2_saved := zero;
               additional_cost_savings := zero |} |}.
Proof. rewrite scenario_fst. reflexivity. Qed.

Lemma projected_produced (rows rows' : list PackagingData) (ri wr : float) :
  project_rows ri wr rows = Ok rows' ->
  map total_produced rows' = map total_produced rows.
Proof.
  intros E. apply project_rows_Forall2 in E.
  induction E as [|r r' rows0 rows0' (reused & waste & _ & _ & ->) _ IH];
    cbn [map]; [reflexivity | now rewrite IH].
Qed.

(** X5: when the base frame has no production (the int64 sum of
    [total_produced] is not positive) and no conversion raises, the reuse
    and waste rates of the base and of the projected metrics are 0 and
    both rate deltas are 0.0, whatever the parameters are: the division is
    guarded, and the scenario does not change [total_produced]. *)
Theorem scenario_without_production (rows : list PackagingData)
  (ri wr : float) :
  isum (map total_produced rows) <= 0 ->
  scaling_is_finite ri wr rows = true ->
  exists res,
    fst (scenario (Table rows) ri wr) = Ok res
    /\ kpi_reuse_rate (base_metrics res) = zero
    /\ kpi_waste_rate (base_metrics res) = zero
    /\ kpi_reuse_rate (projected_metrics res) = zero
    /\ kpi_waste_rate (projected_metrics res) = zero
    /\ reuse_rate_improvement (improvements res) = zero
    /\ waste_rate_reduction (improvements res) = zero.
Proof.
  intros H Hf. destruct (project_rows_finite ri wr rows Hf) as [rows' E].
  rewrite scenario_fst, E. cbn [bind].
  eexists. split; [reflexivity|].
  unfold scenario_result, scenario_kpis.
  cbn [base_metrics projected_metrics improvements kpi_reuse_rate
       kpi_waste_rate reuse_rate_improvement waste_rate_reduction].
  rewrite (projected_produced rows rows' ri wr E).
  unfold DataProcessor.guarded_rate.
  replace (0 <? isum (map total_produced rows)) with false
    by (symmetry; apply Z.ltb_ge; exact H).
  repeat split.
Qed.

Lemma scenario_without_production_witness :
  exists res,
    fst (scenario (Table [glass_record 0 0 0 0 0 0 zero zero])
                  (dec 15 2) (dec 20 2)) = Ok res
    /\ kpi_reuse_rate (base_metrics res) = zero
    /\ kpi_waste_rate (base_metrics res) = zero
    /\ kpi_reuse_rate (projected_metrics res) = zero
    /\ kpi_waste_rate (projected_metrics res) = zero
    /\ reuse_rate_improvement (improvements res) = zero
    /\ waste_rate_reduction (improvements res) = zero.
Proof.
  apply (scenario_without_production
           [glass_record 0 0 0 0 0 0 zero zero] (dec 15 2) (dec 20 2)).
  - vm_compute. discriminate.
  - vm_compute. reflexivity.
Defined.

Lemma frame_at_update_other (s : store) (l l' : loc) (df : DataFrame) :
  l <> l' -> frame_at (update s l df) l' = frame_at s l'.
Proof.
  unfold frame_at. revert l l'.
  induction s as [|d s IH]; intros [|l] [|l'] H; simpl; auto; try congruence.
Qed.

Lemma frame_at_update_same (s : store) (l : loc) (df : DataFrame) :
  (l < List.length s)%nat -> frame_at (update s l df) l = df.
Proof.
  unfold frame_at. revert l.
  induction s as [|d s IH]; intros [|l] H; simpl in *; try lia; auto.
  apply IH. lia.
Qed.

(** X6: the engine works on its own copy: when the caller's frame is
    overwritten after the engine was built, the engine's [base_data] is
    still the frame it was built on and [run_scenario] returns what it
    would have returned otherwise. *)
Theorem engine_isolated_from_caller (s : store) (caller : loc)
  (df' : DataFrame) (ri wr : float) :
  (caller < List.length s)%nat ->
  exists self s0,
    __init__ caller s = (Ok self, s0)
    /\ frame_at (update s0 caller df') caller = df'
    /\ frame_at (update s0 caller df') (base_data self) = frame_at s caller
    /\ fst (run_scenario self ri wr (update s0 caller df'))
       = fst (run_scenario self ri wr s0).
Proof.
  intros Hc.
  exists {| base_data := List.length s |}, (s ++ [frame_at s caller]).
  split; [reflexivity|].
  assert (Hne : caller <> List.length s) by lia.
  assert (E : frame_at (update (s ++ [frame_at s caller]) caller df')
                (List.length s) = frame_at s caller)
    by (rewrite frame_at_update_other by exact Hne; apply frame_at_new).
  split; [apply frame_at_update_same; rewrite length_app; simpl; lia|].
  split; [exact E|].
  cbn [base_data] in *.
  now rewrite !run_scenario_result, E, frame_at_new.
Qed.

Lemma engine_isolated_from_caller_witness :
  let s := [Table [glass_record 0 1000 800 560 240 200 zero zero]] in
  exists self s0,
    __init__ 0%nat s = (Ok self, s0)
    /\ frame_at (update s0 0%nat (Table [])) 0%nat = Table []
    /\ frame_at (update s0 0%nat (Table [])) (base_data self)
       = frame_at s 0%nat
    /\ fst (run_scenario self (dec 15 2) (dec 20 2)
              (update s0 0%nat (Table [])))
       = fst (run_scenario self (dec 15 2) (dec 20 2) s0).
Proof.
  apply (engine_isolated_from_caller
           [Table [glass_record 0 1000 800 560 240 200 zero zero]] 0%nat
           (Table []) (dec 15 2) (dec 20 2)).
  simpl. lia.
Defined.

(** X7: the metrics of [run_scenario] are those of [calculate_kpis]: when
    no conversion raises, the base metrics agree with [calculate_kpis] on
    the base frame and the projected metrics with [calculate_kpis] on the
    simulated frame, rate for rate and total for total. *)
Theorem scenario_metrics_agree_with_kpis (rows : list PackagingData)
  (ri wr : float) :
  scaling_is_finite ri wr rows = true ->
  exists res k k',
    fst (scenario (Table rows) ri wr) = Ok res
    /\ DataProcessor.calculate_kpis (Table rows) = Ok k
    /\ DataProcessor.calculate_kpis (simulated_data (Table rows) ri wr) = Ok k'
    /\ kpi_reuse_rate (base_metrics res) = reuse_rate k
    /\ kpi_waste_rate (base_metrics res) = waste_rate k
    /\ kpi_co2_saved (base_metrics res) = co2_saved_total k
    /\ kpi_cost_savings (base_metrics res) = cost_savings_total k
    /\ kpi_reuse_rate (projected_metrics res) = reuse_rate k'
    /\ kpi_waste_rate (projected_metrics res) = waste_rate k'
    /\ kpi_co2_saved (projected_metrics res) = co2_saved_total k'
    /\ kpi_cost_savings (projected_metrics res) = cost_savings_total k'.
Proof.
  intros Hf. destruct (project_rows_finite ri wr rows Hf) as [rows' E].
  rewrite scenario_fst, (simulated_data_ok rows rows' ri wr E), E.
  cbn [bind].
  do 3 eexists.
  split; [reflexivity|]. split; [reflexivity|]. split; [reflexivity|].
  repeat split.
Qed.

Lemma scenario_metrics_agree_with_kpis_witness :
  let rows := [glass_record 0 1000 800 560 240 200
                 (of_int 400) (of_int 120)] in
  exists res k k',
    fst (scenario (Table rows) (dec 15 2) (dec 20 2)) = Ok res
    /\ DataProcessor.calculate_kpis (Table rows) = Ok k
    /\ DataProcessor.calculate_kpis
         (simulated_data (Table rows) (dec 15 2) (dec 20 2)) = Ok k'
    /\ kpi_reuse_rate (base_metrics res) = reuse_rate k
    /\ kpi_waste_rate (base_metrics res) = waste_rate k
    /\ kpi_co2_saved (base_metrics res) = co2_saved_total k
    /\ kpi_cost_savings (base_metrics res) = cost_savings_total k
    /\ kpi_reuse_rate (projected_metrics res) = reuse_rate k'
    /\ kpi_waste_rate (projected_metrics res) = waste_rate k'
    /\ kpi_co2_saved (projected_metrics res) = co2_saved_total k'
    /\ kpi_cost_savings (projected_metrics res) = cost_savings_total k'.
Proof.
  apply (scenario_metrics_agree_with_kpis
           [glass_record 0 1000 800 560 240 200 (of_int 400) (of_int 120)]
           (dec 15 2) (dec 20 2)).
  vm_compute. reflexivity.
Defined.

(** ** Parameters that change nothing, or everything *)

Lemma of_int_finite (c : Z) :
  - 2 ^ 53 < c < 2 ^ 53 -> is_finite (of_int c) = true.
Proof.
  intros Hc. unfold of_int, binary_normalize.
  destruct c as [|p|p]; [reflexivity| |].
  - destruct (binary_round_small false p) as (m & e & E & _).
    { apply digits2_pos_small. lia. }
    now rewrite E.
  - destruct (binary_round_small true p) as (m & e & E & _).
    { apply digits2_pos_small. lia. }
    now rewrite E.
Qed.

(** X8: with [reuse_improvement = 0.0], when the conversion of the waste
    counts does not raise, every reused count below 2^53 in magnitude is
    projected to itself, whatever the waste reduction is; and where the
    base record has [total_returned = total_reused + total_recycled] with
    a recycled count that is not negative and within the int64 range, its
    recycled count is kept too. *)
Theorem no_reuse_improvement_keeps_reuse (rows : list PackagingData)
  (wr : float) :
  Forall (fun r => - 2 ^ 53 < total_reused r < 2 ^ 53) rows ->
  scaling_is_finite zero wr rows = true ->
  exists rows',
    simulated_data (Table rows) zero wr = Table rows'
    /\ Forall2
         (fun r r' =>
            total_reused r' = total_reused r
            /\ (total_returned r = total_reused r + total_recycled r ->
                0 <= total_recycled r <= int64_max ->
                total_recycled r' = total_recycled r))
         rows rows'.
Proof.
  intros H Hf. destruct (project_rows_finite zero wr rows Hf) as [rows' E].
  exists rows'. split; [now apply simulated_data_ok|].
  apply project_rows_Forall2 in E. clear Hf.
  induction E as [|r r' rows0 rows0' (reused & waste & Hr & _ & ->) _ IH];
    [constructor|].
  inversion H as [|? ? Hb H']; subst.
  constructor; [|now apply IH].
  rewrite one_plus_zero, scale_by_one in Hr by exact Hb.
  injection Hr as <-.
  unfold projected. cbn [total_reused total_recycled].
  split; [reflexivity|]. intros Hrt Hrc.
  unfold isub. rewrite wrap_id by (unfold int64_min; lia). lia.
Qed.

Lemma no_reuse_improvement_keeps_reuse_witness :
  exists rows',
    simulated_data (Table [glass_record 0 1000 800 560 240 200 zero zero])
                   zero (dec 20 2) = Table rows'
    /\ Forall2
         (fun r r' =>
            total_reused r' = total_reused r
            /\ (total_returned r = total_reused r + total_recycled r ->
                0 <= total_recycled r <= int64_max ->
                total_recycled r' = total_recycled r))
         [glass_record 0 1000 800 560 240 200 zero zero] rows'.
Proof.
  apply (no_reuse_improvement_keeps_reuse
           [glass_record 0 1000 800 560 240 200 zero zero] (dec 20 2)).
  - repeat constructor; simpl; lia.
  - vm_compute. reflexivity.
Defined.

(** X9: with [waste_reduction = 0.0], when the conversion of the reused
    counts does not raise, every waste count below 2^53 in magnitude is
    projected to itself, whatever the reuse improvement is. *)
Theorem no_waste_reduction_keeps_waste (rows : list PackagingData)
  (ri : float) :
  Forall (fun r => - 2 ^ 53 < total_waste r < 2 ^ 53) rows ->
  scaling_is_finite ri zero rows = true ->
  exists rows',
    simulated_data (Table rows) ri zero = Table rows'
    /\ Forall2 (fun r r' => total_waste r' = total_waste r) rows rows'.
Proof.
  intros H Hf. destruct (project_rows_finite ri zero rows Hf) as [rows' E].
  exists rows'. split; [now apply simulated_data_ok|].
  apply project_rows_Forall2 in E. clear Hf.
  induction E as [|r r' rows0 rows0' (reused & waste & _ & Hw & ->) _ IH];
    [constructor|].
  inversion H as [|? ? Hb H']; subst.
  constructor; [|now apply IH].
  rewrite one_minus_zero, scale_by_one in Hw by exact Hb.
  now injection Hw as <-.
Qed.

Lemma no_waste_reduction_keeps_waste_witness :
  exists rows',
    simulated_data (Table [glass_record 0 1000 800 560 240 200 zero zero])
                   (dec 15 2) zero = Table rows'
    /\ Forall2 (fun r r' => total_waste r' = total_waste r)
         [glass_record 0 1000 800 560 240 200 zero zero] rows'.
Proof.
  apply (no_waste_reduction_keeps_waste
           [glass_record 0 1000 800 560 240 200 zero zero] (dec 15 2)).
  - repeat constructor; simpl; lia.
  - vm_compute. reflexivity.
Defined.

(** X10: with [waste_reduction = 1.0], when the conversion of the reused
    counts does not raise, every waste count below 2^53 in magnitude is
    projected to 0: a reduction of 100% removes all waste. *)
Theorem full_waste_reduction_removes_waste (rows : list PackagingData)
  (ri : float) :
  Forall (fun r => - 2 ^ 53 < total_waste r < 2 ^ 53) rows ->
  scaling_is_finite ri (of_int 1) rows = true ->
  exists rows',
    simulated_data (Table rows) ri (of_int 1) = Table rows'
    /\ Forall (fun r' => total_waste r' = 0) rows'.
Proof.
  intros H Hf.
  destruct (project_rows_finite ri (of_int 1) rows Hf) as [rows' E].
  exists rows'. split; [now apply simulated_data_ok|].
  apply project_rows_Forall2 in E. clear Hf.
  induction E as [|r r' rows0 rows0' (reused & waste & _ & Hw & ->) _ IH];
    [constructor|].
  inversion H as [|? ? Hb H']; subst.
  constructor; [|now apply IH].
  change (fsub (of_int 1) (of_int 1)) with zero in Hw.
  pose proof (of_int_finite (total_waste r) Hb) as Hfin.
  unfold projected. cbn [total_waste].
  destruct (of_int (total_waste r)) as [s|s| |s m e]; try discriminate;
    simpl in Hw; now injection Hw as <-.
Qed.

Lemma full_waste_reduction_removes_waste_witness :
  exists rows',
    simulated_data (Table [glass_record 0 1000 800 560 240 200 zero zero])
                   (dec 15 2) (of_int 1) = Table rows'
    /\ Forall (fun r' => total_waste r' = 0) rows'.
Proof.
  apply (full_waste_reduction_removes_waste
           [glass_record 0 1000 800 560 240 200 zero zero] (dec 15 2)).
  - repeat constructor; simpl; lia.
  - vm_compute. reflexivity.
Defined.

(** X23: [run_scenario] on a frame with columns either returns a result
    or raises [IntCastingNaNError], and it raises exactly when one of the
    scaled counts [total_reused * (1 + reuse_improvement)] and
    [total_waste * (1 - waste_reduction)] is a NaN or an infinity; a
    scaled count that is a number outside the int64 range does not
    raise. *)
Theorem scenario_raises_on_non_finite (rows : list PackagingData)
  (ri wr : float) :
  (scaling_is_finite ri wr rows = true
   <-> exists res, fst (scenario (Table rows) ri wr) = Ok res)
  /\ (scaling_is_finite ri wr rows = false
      <-> fst (scenario (Table rows) ri wr) = IntCastingNaNError).
Proof.
  rewrite scenario_fst.
  destruct (project_rows_cases ri wr rows) as [(Hf & rows' & E)|(Hf & E)];
    rewrite E, Hf; cbn [bind].
  - split; split; try discriminate; eauto.
  - split; split; try discriminate; auto. intros [res Hres]. discriminate.
Qed.

(** A NaN parameter, an infinite one, and one that makes a scaled count
    overflow, each raise; with an infinite parameter a count of 0 is
    enough, since [0 * inf] is NaN.  A parameter of [10^30] does not: the
    reused count becomes [-2^63], and the recycled count the int64
    difference [800 - (-2^63)], which wraps around to a negative number and
    is clipped to 0. *)
Lemma scenario_raises_examples :
  fst (scenario (Table [glass_record 0 1000 800 560 240 200 zero zero])
                S754_nan zero) = IntCastingNaNError
  /\ fst (scenario (Table [glass_record 0 0 0 0 0 0 zero zero])
                   (S754_infinity false) zero) = IntCastingNaNError
  /\ fst (scenario (Table [glass_record 0 1000 800 560 240 200 zero zero])
                   zero (of_int (10 ^ 308))) = IntCastingNaNError
  /\ counts (simulated_data
               (Table [glass_record 0 1000 800 560 240 200 zero zero])
               (of_int (10 ^ 30)) zero) Reused = Ok [int64_min]
  /\ counts (simulated_data
               (Table [glass_record 0 1000 800 560 240 200 zero zero])
               (of_int (10 ^ 30)) zero) Recycled = Ok [0].
Proof. repeat split; vm_compute; reflexivity. Qed.

(** ** Grouping keys *)

Section KeyOrder.
Context {K : Type} (cmp : K -> K -> comparison).
Hypothesis cmp_eq : forall a b, cmp a b = Eq <-> a = b.
Hypothesis cmp_gt : forall a b, cmp a b = Gt -> cmp b a = Lt.
Hypothesis cmp_trans :
  forall a b c, cmp a b = Lt -> cmp b c = Lt -> cmp a c = Lt.

Lemma same_key_eq (a b : K) : same_key cmp a b = true <-> a = b.
Proof.
  unfold same_key. rewrite <- cmp_eq.
  destruct (cmp a b); split; congruence.
Qed.

Lemma in_insert_key_ord (x k : K) (ks : list K) :
  In x (insert_key cmp k ks) <-> x = k \/ In x ks.
Proof.
  induction ks as [|k' ks IH]; simpl.
  - intuition.
  - destruct (cmp k k') eqn:E; simpl.
    + apply cmp_eq in E. subst. intuition.
    + intuition.
    + rewrite IH. intuition.
Qed.

Lemma in_group_keys_ord (x : K) (ks : list K) :
  In x (group_keys cmp ks) <-> In x ks.
Proof.
  induction ks as [|k ks IH]; simpl; [reflexivity|].
  rewrite in_insert_key_ord, IH. intuition.
Qed.

Lemma insert_key_sorted_ord (k : K) (ks : list K) :
  StronglySorted (fun a b => cmp a b = Lt) ks ->
  StronglySorted (fun a b => cmp a b = Lt) (insert_key cmp k ks).
Proof.
  induction 1 as [|k' ks Hs IH Hall]; simpl.
  - repeat constructor.
  - destruct (cmp k k') eqn:E.
    + now constructor.
    + constructor; [now constructor|].
      constructor; [exact E|].
      eapply Forall_impl; [|exact Hall]. simpl. intros c Hc.
      now apply (cmp_trans k k' c).
    + constructor; [exact IH|].
      apply Forall_forall. intros x Hx. apply in_insert_key_ord in Hx.
      destruct Hx as [->|Hx]; [now apply cmp_gt|].
      rewrite Forall_forall in Hall. now apply Hall.
Qed.

Lemma group_keys_sorted_ord (ks : list K) :
  StronglySorted (fun a b => cmp a b = Lt) (group_keys cmp ks).
Proof.
  induction ks as [|k ks IH]; simpl; [constructor|].
  now apply insert_key_sorted_ord.
Qed.

Lemma sorted_NoDup_ord (ks : list K) :
  StronglySorted (fun a b => cmp a b = Lt) ks -> NoDup ks.
Proof.
  induction 1 as [|k ks Hs IH Hall]; constructor; [|exact IH].
  intros Hin. rewrite Forall_forall in Hall. specialize (Hall k Hin).
  assert (E : cmp k k = Eq) by now apply cmp_eq. congruence.
Qed.

Lemma zsum_map_add {A : Type} (f g : A -> Z) (l : list A) :
  zsum (map (fun a => f a + g a) l) = zsum (map f l) + zsum (map g l).
Proof.
  induction l as [|a l IH]; cbn [map]; rewrite ?zsum_nil, ?zsum_cons; lia.
Qed.

Lemma zsum_indicator_out (k0 : K) (v : Z) (ks : list K) :
  ~ In k0 ks ->
  zsum (map (fun k => if same_key cmp k0 k then v else 0) ks) = 0.
Proof.
  induction ks as [|k ks IH]; cbn [map]; intros Hn;
    rewrite ?zsum_nil, ?zsum_cons; [reflexivity|].
  destruct (same_key cmp k0 k) eqn:E.
  - apply same_key_eq in E. subst. exfalso. apply Hn. now left.
  - rewrite IH; [lia|]. intros Hin. apply Hn. now right.
Qed.

Lemma zsum_indicator_in (k0 : K) (v : Z) (ks : list K) :
  NoDup ks -> In k0 ks ->
  zsum (map (fun k => if same_key cmp k0 k then v else 0) ks) = v.
Proof.
  induction 1 as [|k ks Hk Hnd IH]; cbn [map In]; [tauto|].
  intros Hin. rewrite zsum_cons.
  destruct (same_key cmp k0 k) eqn:E.
  - apply same_key_eq in E. subst.
    rewrite zsum_indicator_out by exact Hk. lia.
  - destruct Hin as [->|Hin].
    + assert (same_key cmp k0 k0 = true) by now apply same_key_eq.
      congruence.
    + rewrite (IH Hin). lia.
Qed.

(** The groups partition the rows: summing a column group by group gives
    the sum over the frame, over the integers and in int64 arithmetic. *)
Lemma partition_zsum (f : PackagingData -> Z) (key : PackagingData -> K)
  (rows : list PackagingData) (ks : list K) :
  NoDup ks ->
  (forall r, In r rows -> In (key r) ks) ->
  zsum (map (fun k =>
               zsum (map f (filter (fun r => same_key cmp (key r) k) rows)))
            ks)
  = zsum (map f rows).
Proof.
  intros Hnd. induction rows as [|r rows IH]; intros Hin.
  - cbn [filter map]. rewrite zsum_nil. clear.
    induction ks as [|k ks IHk]; cbn [map]; rewrite ?zsum_nil, ?zsum_cons;
      [reflexivity|].
    rewrite IHk. reflexivity.
  - cbn [map]. rewrite zsum_cons.
    rewrite <- IH by (intros r' Hr'; apply Hin; now right).
    rewrite <- (zsum_indicator_in (key r) (f r) ks Hnd)
      by (apply Hin; now left).
    rewrite <- zsum_map_add. f_equal. apply map_ext. intros k.
    cbn [filter]. destruct (same_key cmp (key r) k); cbn [map];
      rewrite ?zsum_cons; lia.
Qed.

Lemma isum_map_wrap {A : Type} (g : A -> Z) (l : list A) :
  isum (map (fun a => wrap (g a)) l) = isum (map g l).
Proof.
  unfold isum.
  induction l as [|a l IH]; cbn [map]; [reflexivity|].
  rewrite !zsum_cons, wrap_add_l.
  rewrite <- (wrap_add_r (g a) (zsum (map g l))), <- IH.
  now rewrite wrap_add_r.
Qed.

Lemma partition_sum (f : PackagingData -> Z) (key : PackagingData -> K)
  (rows : list PackagingData) (ks : list K) :
  NoDup ks ->
  (forall r, In r rows -> In (key r) ks) ->
  isum (map (fun k =>
               isum (map f (filter (fun r => same_key cmp (key r) k) rows)))
            ks)
  = isum (map f rows).
Proof.
  intros Hnd Hin. unfold isum at 2.
  rewrite (isum_map_wrap
             (fun k => zsum (map f (filter (fun r => same_key cmp (key r) k)
                                           rows))) ks).
  unfold isum. now rewrite partition_zsum.
Qed.

Lemma groupby_partition (f : PackagingData -> Z) (key : PackagingData -> K)
  (rows : list PackagingData) :
  isum (map (fun g => isum (map f (snd g))) (groupby cmp key rows))
  = isum (map f rows).
Proof.
  unfold groupby. rewrite map_map. cbn [snd].
  apply partition_sum.
  - apply sorted_NoDup_ord, group_keys_sorted_ord.
  - intros r Hr. apply in_group_keys_ord. now apply in_map.
Qed.

End KeyOrder.

(** The three orders of the grouping keys are orders. *)
Lemma string_cmp_eq (a b : string) : String.compare a b = Eq <-> a = b.
Proof. exact (String_as_OT.cmp_eq a b). Qed.

Lemma string_cmp_gt (a b : string) :
  String.compare a b = Gt -> String.compare b a = Lt.
Proof.
  intros H. rewrite String.compare_antisym, H. reflexivity.
Qed.

Lemma string_cmp_trans (a b c : string) :
  String.compare a b = Lt -> String.compare b c = Lt ->
  String.compare a c = Lt.
Proof.
  intros H1 H2. apply String_as_OT.cmp_lt.
  apply (String_as_OT.lt_trans a b c); now apply String_as_OT.cmp_lt.
Qed.

Lemma pair_cmp_eq (a b : string * string) : pair_compare a b = Eq <-> a = b.
Proof.
  destruct a as [a1 a2], b as [b1 b2]. unfold pair_compare. cbn [fst snd].
  destruct (String.compare a1 b1) eqn:E1.
  - apply string_cmp_eq in E1. subst. rewrite string_cmp_eq.
    split; [now intros -> | now intros [= ->]].
  - split; [discriminate|]. intros [= -> ->].
    assert (String.compare b1 b1 = Eq) by now apply string_cmp_eq.
    congruence.
  - split; [discriminate|]. intros [= -> ->].
    assert (String.compare b1 b1 = Eq) by now apply string_cmp_eq.
    congruence.
Qed.

Lemma pair_cmp_gt (a b : string * string) :
  pair_compare a b = Gt -> pair_compare b a = Lt.
Proof.
  destruct a as [a1 a2], b as [b1 b2]. unfold pair_compare. cbn [fst snd].
  rewrite (String.compare_antisym a1 b1).
  destruct (String.compare b1 a1); cbn [CompOpp]; try discriminate; auto.
  apply string_cmp_gt.
Qed.

Lemma pair_cmp_trans (a b c : string * string) :
  pair_compare a b = Lt -> pair_compare b c = Lt -> pair_compare a c = Lt.
Proof.
  destruct a as [a1 a2], b as [b1 b2], c as [c1 c2].
  unfold pair_compare. cbn [fst snd].
  destruct (String.compare a1 b1) eqn:E1; try discriminate;
    destruct (String.compare b1 c1) eqn:E2; try discriminate; intros H1 H2.
  - apply string_cmp_eq in E1, E2. subst.
    assert (E : String.compare c1 c1 = Eq) by now apply string_cmp_eq.
    rewrite E. now apply (string_cmp_trans a2 b2 c2).
  - apply string_cmp_eq in E1. subst. now rewrite E2.
  - apply string_cmp_eq in E2. subst. now rewrite E1.
  - now rewrite (string_cmp_trans a1 b1 c1 E1 E2).
Qed.

Lemma z_cmp_gt (a b : Z) : Z.compare a b = Gt -> Z.compare b a = Lt.
Proof. intros H. apply Z.compare_lt_iff. apply Z.compare_gt_iff in H. lia. Qed.

Lemma z_cmp_trans (a b c : Z) :
  Z.compare a b = Lt -> Z.compare b c = Lt -> Z.compare a c = Lt.
Proof. rewrite !Z.compare_lt_iff. lia. Qed.

(** ** [calculate_kpis] without production *)

(** X12: over a frame with columns in which nothing was produced (the
    int64 sum of [total_produced], the value the guard of the code tests,
    is not positive), [calculate_kpis] returns the three rates 0 and an
    [efficiency_score] of 30.0. *)
Theorem calculate_kpis_without_production (rows : list PackagingData) :
  isum (map total_produced rows) <= 0 ->
  exists k,
    DataProcessor.calculate_kpis (Table rows) = Ok k
    /\ reuse_rate k = zero /\ waste_rate k = zero /\ recovery_rate k = zero
    /\ efficiency_score k = of_int 30.
Proof.
  intros H. eexists. split; [reflexivity|].
  cbn [reuse_rate waste_rate recovery_rate efficiency_score].
  unfold DataProcessor.guarded_rate.
  change (count_of Produced) with total_produced.
  replace (0 <? isum (map total_produced rows)) with false
    by (symmetry; apply Z.ltb_ge; exact H).
  repeat split.
Qed.

Lemma calculate_kpis_without_production_witness :
  exists k,
    DataProcessor.calculate_kpis
      (Table [glass_record 0 0 0 0 0 0 zero zero]) = Ok k
    /\ reuse_rate k = zero /\ waste_rate k = zero /\ recovery_rate k = zero
    /\ efficiency_score k = of_int 30.
Proof.
  apply (calculate_kpis_without_production
           [glass_record 0 0 0 0 0 0 zero zero]).
  vm_compute. discriminate.
Defined.

(** The guard tests the int64 sum: two records of 2^62 produced units
    each add up to [-2^63], and the rates are 0 although units were
    produced. *)
Lemma calculate_kpis_wrapped_production :
  exists k,
    DataProcessor.calculate_kpis
      (Table [glass_record 0 (2 ^ 62) 0 0 0 (2 ^ 62) zero zero;
              glass_record 0 (2 ^ 62) 0 0 0 (2 ^ 62) zero zero]) = Ok k
    /\ reuse_rate k = zero /\ waste_rate k = zero /\ recovery_rate k = zero.
Proof. eexists. split; [reflexivity|]. repeat split. Qed.

(** ** One row per group *)

Lemma facility_keys (rows : list PackagingData)
  (out : list (AggRow (string * string))) :
  Forall2 of_group
    (groupby pair_compare (fun r => (facility_id r, facility_name r)) rows)
    out ->
  StronglySorted (fun a b => pair_compare a b = Lt) (map group_key out)
  /\ NoDup (map group_key out)
  /\ (forall k, In k (map group_key out)
                <-> In k (map (fun r => (facility_id r, facility_name r))
                              rows)).
Proof.
  intros HF. rewrite (of_group_keys _ _ HF), groupby_keys.
  pose proof (group_keys_sorted_ord pair_compare pair_cmp_eq pair_cmp_gt
                pair_cmp_trans
                (map (fun r => (facility_id r, facility_name r)) rows)) as Hs.
  split; [exact Hs|]. split.
  - now apply (sorted_NoDup_ord pair_compare pair_cmp_eq).
  - intros k. now apply in_group_keys_ord, pair_cmp_eq.
Qed.

(** X13: [get_facility_performance] returns one row for each pair of
    facility id and facility name that occurs in the frame and no other
    row; the rows are in strictly ascending order of the pair, compared
    lexicographically, so no pair occurs twice. *)
Theorem facility_rows_one_per_facility (rows : list PackagingData) :
  exists out,
    DataProcessor.get_facility_performance (Table rows) = Ok out
    /\ StronglySorted (fun a b => pair_compare a b = Lt) (map group_key out)
    /\ NoDup (map group_key out)
    /\ (forall k, In k (map group_key out)
                  <-> In k (map (fun r => (facility_id r, facility_name r))
                                rows)).
Proof.
  destruct (get_facility_performance_rows rows) as (out & E & HF).
  exists out. split; [exact E|]. now apply facility_keys.
Qed.

Lemma packaging_keys (rows : list PackagingData) (out : list (AggRow string))
  (gs : list (string * list PackagingData)) :
  gs = groupby String.compare packaging_type rows ->
  map group_key out = map fst gs ->
  StronglySorted (fun a b => String.compare a b = Lt) (map group_key out)
  /\ NoDup (map group_key out)
  /\ (forall k, In k (map group_key out)
                <-> In k (map packaging_type rows)).
Proof.
  intros -> Hk. rewrite Hk, groupby_keys.
  pose proof (group_keys_sorted_ord String.compare string_cmp_eq
                string_cmp_gt string_cmp_trans (map packaging_type rows))
    as Hs.
  split; [exact Hs|]. split.
  - now apply (sorted_NoDup_ord String.compare string_cmp_eq).
  - intros k. now apply in_group_keys_ord, string_cmp_eq.
Qed.

Lemma create_packaging_breakdown_keys (rows : list PackagingData) :
  exists out,
    create_packaging_breakdown (Table rows) = Ok out
    /\ map group_key out
       = map fst (groupby String.compare packaging_type rows).
Proof.
  unfold create_packaging_breakdown.
  destruct (mapM_Forall2
              (fun row =>
                 row <- assign_rate ReuseRate Reused Produced row ;;
                 row <- assign_rate RecoveryRate Returned Produced row ;;
                 assign_rate WasteRate Waste Produced row)
              (agg [Produced; Returned; Reused; Recycled; Waste] [Co2Saved])
              (fun g row => group_key row = fst g)
              (groupby String.compare packaging_type rows)) as (out & E & HF).
  { intros g. eexists. split; reflexivity. }
  exists out. split; [exact E|].
  clear E. induction HF as [|g row gs out Hk _ IH]; cbn [map];
    [reflexivity | now rewrite Hk, IH].
Qed.

(** X14: [get_packaging_performance] and [create_packaging_breakdown]
    return one row for each packaging type that occurs in the frame and no
    other row, in strictly ascending order of the type names. *)
Theorem packaging_rows_one_per_type (rows : list PackagingData) :
  (exists out,
      DataProcessor.get_packaging_performance (Table rows) = Ok out
      /\ StronglySorted (fun a b => String.compare a b = Lt)
           (map group_key out)
      /\ NoDup (map group_key out)
      /\ (forall k, In k (map group_key out)
                    <-> In k (map packaging_type rows)))
  /\ (exists out,
         create_packaging_breakdown (Table rows) = Ok out
         /\ StronglySorted (fun a b => String.compare a b = Lt)
              (map group_key out)
         /\ NoDup (map group_key out)
         /\ (forall k, In k (map group_key out)
                       <-> In k (map packaging_type rows))).
Proof.
  split.
  - destruct (get_packaging_performance_rows rows) as (out & E & HF).
    exists out. split; [exact E|].
    apply (packaging_keys rows out _ eq_refl). now apply of_group_keys.
  - destruct (create_packaging_breakdown_keys rows) as (out & E & Hk).
    exists out. split; [exact E|].
    now apply (packaging_keys rows out _ eq_refl).
Qed.

(** ** Totals and rates of the groups *)

Lemma rows_total {K : Type} (gs : list (K * list PackagingData))
  (out : list (AggRow K)) (c : count_column) :
  Forall2 of_group gs out ->
  In c DataProcessor.agg_counts ->
  total_of_rows c out
  = Ok (isum (map (fun g => isum (map (count_of c) (snd g))) gs)).
Proof.
  intros HF Hc. unfold total_of_rows.
  assert (E : mapM (fun row => row_count row c) out
              = Ok (map (fun g => isum (map (count_of c) (snd g))) gs)).
  { induction HF as [|g row gs out (_ & Hs & _) _ IH]; cbn [mapM map];
      [reflexivity|].
    rewrite IH. unfold row_count. rewrite Hs.
    destruct Hc as [<-|[<-|[<-|[<-|[]]]]]; reflexivity. }
  now rewrite E.
Qed.

(** X15: the aggregations conserve the totals: for each of the four
    summed counts (produced, returned, reused, waste) the values of the
    rows of [get_facility_performance], of [get_packaging_performance] and
    of [get_time_series_data] add up, in int64 arithmetic, to the int64
    sum of the column over the whole frame; every record is counted in
    exactly one group. *)
Theorem aggregations_conserve_totals (rows : list PackagingData)
  (c : count_column) :
  In c DataProcessor.agg_counts ->
  (exists out,
      DataProcessor.get_facility_performance (Table rows) = Ok out
      /\ total_of_rows c out = Ok (isum (map (count_of c) rows)))
  /\ (exists out,
         DataProcessor.get_packaging_performance (Table rows) = Ok out
         /\ total_of_rows c out = Ok (isum (map (count_of c) rows)))
  /\ (exists out,
         DataProcessor.get_time_series_data (Table rows) = Ok out
         /\ total_of_rows c out = Ok (isum (map (count_of c) rows))).
Proof.
  intros Hc. split; [|split].
  - destruct (get_facility_performance_rows rows) as (out & E & HF).
    exists out. split; [exact E|].
    rewrite (rows_total _ out c HF Hc).
    now rewrite (groupby_partition pair_compare pair_cmp_eq pair_cmp_gt
                   pair_cmp_trans).
  - destruct (get_packaging_performance_rows rows) as (out & E & HF).
    exists out. split; [exact E|].
    rewrite (rows_total _ out c HF Hc).
    now rewrite (groupby_partition String.compare string_cmp_eq
                   string_cmp_gt string_cmp_trans).
  - destruct (time_series_rows rows) as (out & E & HF).
    assert (Hs : StronglySorted Z.lt (map group_key out)).
    { rewrite (of_group_keys _ _ HF), groupby_keys.
      apply group_keys_sorted. }
    rewrite (sort_values_sorted out Hs) in E.
    exists out. split; [exact E|].
    rewrite (rows_total _ out c HF Hc).
    now rewrite (groupby_partition Z.compare Z.compare_eq_iff z_cmp_gt
                   z_cmp_trans).
Qed.

Lemma aggregations_conserve_totals_witness :
  let rows := [glass_record 0 1000 800 560 240 200 zero zero;
               glass_record 1 500 400 279 121 100 zero zero] in
  (exists out,
      DataProcessor.get_facility_performance (Table rows) = Ok out
      /\ total_of_rows Waste out = Ok (isum (map (count_of Waste) rows)))
  /\ (exists out,
         DataProcessor.get_packaging_performance (Table rows) = Ok out
         /\ total_of_rows Waste out = Ok (isum (map (count_of Waste) rows)))
  /\ (exists out,
         DataProcessor.get_time_series_data (Table rows) = Ok out
         /\ total_of_rows Waste out = Ok (isum (map (count_of Waste) rows))).
Proof.
  apply (aggregations_conserve_totals
           [glass_record 0 1000 800 560 240 200 zero zero;
            glass_record 1 500 400 279 121 100 zero zero] Waste).
  simpl. tauto.
Defined.

Lemma facility_rows_rates (rows : list PackagingData) :
  exists out,
    DataProcessor.get_facility_performance (Table rows) = Ok out
    /\ Forall2
         (fun g row =>
            group_key row = fst g
            /\ rates row
               = map (fun p =>
                        (fst p,
                         fmul (fdiv (of_int (isum (map (count_of (snd p))
                                                       (snd g))))
                                    (of_int (isum (map total_produced
                                                       (snd g)))))
                              (of_int 100)))
                     [(ReuseRate, Reused); (WasteRate, Waste);
                      (RecoveryRate, Returned)])
         (groupby pair_compare (fun r => (facility_id r, facility_name r))
            rows) out.
Proof.
  unfold DataProcessor.get_facility_performance.
  apply mapM_Forall2. intros g.
  eexists. split; [reflexivity|]. split; reflexivity.
Qed.

(** X16: the rates of a facility are the rates of the facility's records
    taken alone: for every row of [get_facility_performance] whose group
    produced something (the int64 sum of its [total_produced] is
    positive), the [reuse_rate], [waste_rate] and [recovery_rate] of the
    row are those that [calculate_kpis] returns on the frame of the
    records of that facility. *)
Theorem facility_rates_agree_with_kpis (rows : list PackagingData) :
  exists out,
    DataProcessor.get_facility_performance (Table rows) = Ok out
    /\ Forall
         (fun row =>
            let group :=
              members pair_compare
                (fun r => (facility_id r, facility_name r)) rows
                (group_key row) in
            exists k,
              DataProcessor.calculate_kpis (Table group) = Ok k
              /\ (0 < isum (map total_produced group) ->
                  row_rate row ReuseRate = Some (reuse_rate k)
                  /\ row_rate row WasteRate = Some (waste_rate k)
                  /\ row_rate row RecoveryRate = Some (recovery_rate k)))
         out.
Proof.
  destruct (facility_rows_rates rows) as (out & E & HF).
  exists out. split; [exact E|].
  apply (Forall2_Forall_r _ _ _ _ HF).
  intros g row Hg (Hk & Hr). cbv zeta.
  rewrite Hk, <- (groupby_members _ _ _ g Hg).
  eexists. split; [reflexivity|]. intros Hp.
  cbn [reuse_rate waste_rate recovery_rate].
  unfold row_rate, DataProcessor.guarded_rate. rewrite Hr.
  change (count_of Produced) with total_produced.
  replace (0 <? isum (map total_produced (snd g))) with true
    by (symmetry; apply Z.ltb_lt; exact Hp).
  repeat split.
Qed.

(** ** [calculate_environmental_impact] *)

Lemma in_unique (x : string) (l : list string) : In x (unique l) <-> In x l.
Proof.
  induction l as [|y l IH]; cbn [unique In]; [reflexivity|].
  rewrite filter_In, IH.
  destruct (String.eqb_spec y x) as [->|Hne]; cbn [negb];
    intuition discriminate.
Qed.

Lemma NoDup_unique (l : list string) : NoDup (unique l).
Proof.
  induction l as [|y l IH]; cbn [unique]; constructor.
  - rewrite filter_In. intros [_ H]. now rewrite String.eqb_refl in H.
  - now apply NoDup_filter.
Qed.

Lemma eqb_same_key (a b : string) :
  String.eqb a b = same_key String.compare a b.
Proof.
  destruct (String.eqb_spec a b) as [->|Hne]; symmetry.
  - now apply (same_key_eq String.compare string_cmp_eq).
  - destruct (same_key String.compare a b) eqn:E; [|reflexivity].
    apply (same_key_eq String.compare string_cmp_eq) in E. contradiction.
Qed.

Lemma fold_left_iadd {A : Type} (g : A -> Z) (l : list A) (a : Z) :
  fold_left (fun acc t => iadd acc (g t)) l (wrap a)
  = wrap (a + zsum (map g l)).
Proof.
  revert a. induction l as [|t l IH]; intros a; cbn [fold_left map].
  - now rewrite zsum_nil, Z.add_0_r.
  - unfold iadd at 2. rewrite wrap_add_l, IH, zsum_cons.
    f_equal. lia.
Qed.

Lemma zsum_map_scale {A : Type} (f : A -> Z) (c : Z) (l : list A) :
  zsum (map f l) * c = zsum (map (fun a => f a * c) l).
Proof.
  induction l as [|a l IH]; cbn [map]; rewrite ?zsum_nil, ?zsum_cons; lia.
Qed.

(** The loop over the packaging types counts every record once. *)
Lemma water_litres_per_record (rows : list PackagingData) :
  water_litres rows
  = isum (map (fun r => (total_reused r + total_recycled r)
                        * water_per_unit_saved (packaging_type r)) rows).
Proof.
  unfold water_litres.
  change 0 with (wrap 0) at 1.
  rewrite (fold_left_iadd
             (fun t => imul (saved_units rows t) (water_per_unit_saved t))),
    Z.add_0_l.
  fold (isum (map (fun t => imul (saved_units rows t)
                                 (water_per_unit_saved t))
                  (unique (map packaging_type rows)))).
  rewrite <- (partition_sum String.compare string_cmp_eq
                (fun r => (total_reused r + total_recycled r)
                          * water_per_unit_saved (packaging_type r))
                packaging_type rows (unique (map packaging_type rows))).
  - apply f_equal, map_ext. intros t.
    unfold saved_units, imul, iadd, isum.
    rewrite wrap_add_l, wrap_add_r, wrap_mul_l.
    rewrite <- zsum_map_add, zsum_map_scale.
    rewrite (filter_ext _ (fun r => same_key String.compare
                                      (packaging_type r) t))
      by (intros r; apply eqb_same_key).
    apply f_equal, f_equal, map_ext_in. intros r Hr.
    apply filter_In in Hr. destruct Hr as [_ Hr].
    apply (same_key_eq String.compare string_cmp_eq) in Hr.
    now rewrite Hr.
  - apply NoDup_unique.
  - intros r Hr. apply in_unique. now apply in_map.
Qed.

(** X18: the [water_saved] that [calculate_environmental_impact] reports
    is a thousandth of the litres saved record by record, each record
    counting its reused and recycled units at the litres per unit of its
    packaging type (10 for a type that is not in the table), all sums and
    products being taken in int64 arithmetic: the loop over the packaging
    types counts every record exactly once. *)
Theorem water_saved_per_record (r : PackagingData)
  (rows : list PackagingData) :
  exists m,
    calculate_environmental_impact (Table (r :: rows)) = Some m
    /\ impact_water_saved m
       = fdiv (of_int
                 (isum (map (fun r => (total_reused r + total_recycled r)
                                      * water_per_unit_saved (packaging_type r))
                            (r :: rows))))
              (of_int 1000).
Proof.
  eexists. split; [reflexivity|].
  cbn [impact_water_saved]. now rewrite water_litres_per_record.
Qed.

(** X19: for a frame with rows in which nothing was produced (the int64
    sum of [total_produced], the value the guard of the code tests, is not
    positive), the four rates that [calculate_environmental_impact]
    reports are 0 and the [circular_score] is 20.0. *)
Theorem environmental_impact_without_production (r : PackagingData)
  (rows : list PackagingData) :
  isum (map total_produced (r :: rows)) <= 0 ->
  exists m,
    calculate_environmental_impact (Table (r :: rows)) = Some m
    /\ impact_reuse_rate m = zero
    /\ impact_recycling_rate m = zero
    /\ impact_waste_rate m = zero
    /\ impact_recovery_rate m = zero
    /\ impact_circular_score m = of_int 20.
Proof.
  intros H. eexists. split; [reflexivity|].
  cbn [impact_reuse_rate impact_recycling_rate impact_waste_rate
       impact_recovery_rate impact_circular_score].
  unfold DataProcessor.guarded_rate.
  replace (0 <? isum (map total_produced (r :: rows))) with false
    by (symmetry; apply Z.ltb_ge; exact H).
  repeat split.
Qed.

Lemma environmental_impact_without_production_witness :
  exists m,
    calculate_environmental_impact
      (Table [glass_record 0 0 0 0 0 0 zero zero]) = Some m
    /\ impact_reuse_rate m = zero
    /\ impact_recycling_rate m = zero
    /\ impact_waste_rate m = zero
    /\ impact_recovery_rate m = zero
    /\ impact_circular_score m = of_int 20.
Proof.
  apply (environmental_impact_without_production
           (glass_record 0 0 0 0 0 0 zero zero) []).
  vm_compute. discriminate.
Defined.

(** X20: the sustainability report and the dashboard agree: on a frame
    with rows the [reuse_rate], [waste_rate] and [recovery_rate] of
    [calculate_environmental_impact] are those of [calculate_kpis], its
    [co2_saved] is the [co2_saved_total] of [calculate_kpis] divided by
    1000, and the units it reports as diverted from landfill are the
    returned units. *)
Theorem environmental_impact_agrees_with_kpis (r : PackagingData)
  (rows : list PackagingData) :
  exists m k,
    calculate_environmental_impact (Table (r :: rows)) = Some m
    /\ DataProcessor.calculate_kpis (Table (r :: rows)) = Ok k
    /\ impact_reuse_rate m = reuse_rate k
    /\ impact_waste_rate m = waste_rate k
    /\ impact_recovery_rate m = recovery_rate k
    /\ impact_co2_saved m = fdiv (co2_saved_total k) (of_int 1000)
    /\ impact_landfill_waste_avoided m = impact_total_returned m.
Proof.
  do 2 eexists. split; [reflexivity|]. split; [reflexivity|].
  repeat split.
Qed.

(** X21: [create_packaging_breakdown] sums [total_recycled] as well: for
    records that satisfy the count identities, every row of the breakdown
    carries the int64 sums of the five counts of the records of its
    packaging type, so that both identities can be read off the row: in
    int64 arithmetic its waste is what was not returned and its returned
    units are its reused plus its recycled ones, and both hold over the
    integers, with no negative recycled count, when the produced units of
    the type add up within the int64 range. *)
Theorem packaging_breakdown_identities (rows : list PackagingData) :
  Forall count_identities rows ->
  exists out,
    create_packaging_breakdown (Table rows) = Ok out
    /\ Forall
         (fun row =>
            let group :=
              members String.compare packaging_type rows (group_key row) in
            row_identities group row
            /\ row_count row Recycled = Ok (isum (map total_recycled group))
            /\ (zsum (map total_produced group) <= int64_max ->
                0 <= isum (map total_recycled group)))
         out.
Proof.
  intros Hid. unfold create_packaging_breakdown.
  destruct (mapM_Forall2
              (fun row =>
                 row <- assign_rate ReuseRate Reused Produced row ;;
                 row <- assign_rate RecoveryRate Returned Produced row ;;
                 assign_rate WasteRate Waste Produced row)
              (agg [Produced; Returned; Reused; Recycled; Waste] [Co2Saved])
              (fun g row =>
                 group_key row = fst g
                 /\ count_sums row
                    = count_sums
                        (agg [Produced; Returned; Reused; Recycled; Waste]
                             [Co2Saved] g))
              (groupby String.compare packaging_type rows)) as (out & E & HF).
  { intros g. eexists. split; [reflexivity|]. split; reflexivity. }
  exists out. split; [exact E|].
  apply (Forall2_Forall_r _ _ _ _ HF).
  intros g row Hg (Hk & Hc). cbv zeta.
  rewrite Hk, <- (groupby_members _ _ _ g Hg).
  pose proof (members_identities String.compare packaging_type rows (fst g)
                Hid) as Hm.
  rewrite <- (groupby_members _ _ _ g Hg) in Hm.
  destruct (isum_identities (snd g) Hm) as (H1 & H2 & H3).
  unfold row_identities, row_count. rewrite Hc. cbn.
  change (count_of Produced) with total_produced.
  change (count_of Returned) with total_returned.
  change (count_of Reused) with total_reused.
  change (count_of Recycled) with total_recycled.
  change (count_of Waste) with total_waste.
  split; [|split; [reflexivity|]].
  - repeat (split; [reflexivity|]).
    split; [exact H1|]. split; [exact H2|].
    intros Hp. destruct (H3 Hp) as (H4 & H5 & H6 & _). auto.
  - intros Hp. now destruct (H3 Hp) as (_ & _ & _ & H7).
Qed.

Lemma packaging_breakdown_identities_witness :
  let rows := [glass_record 0 1000 800 560 240 200 zero zero;
               glass_record 1 500 400 279 121 100 zero zero] in
  exists out,
    create_packaging_breakdown (Table rows) = Ok out
    /\ Forall
         (fun row =>
            let group :=
              members String.compare packaging_type rows (group_key row) in
            row_identities group row
            /\ row_count row Recycled = Ok (isum (map total_recycled group))
            /\ (zsum (map total_produced group) <= int64_max ->
                0 <= isum (map total_recycled group)))
         out.
Proof.
  apply (packaging_breakdown_identities
           [glass_record 0 1000 800 560 240 200 zero zero;
            glass_record 1 500 400 279 121 100 zero zero]).
  repeat constructor; simpl; lia.
Defined.

(** X22: for records that satisfy the count identities, the totals that
    [calculate_environmental_impact] reports satisfy them in int64
    arithmetic, and the units diverted from landfill are the reused plus
    the recycled units; when the produced units add up within the int64
    range, the identities hold over the integers and neither the reused
    nor the recycled total is negative. *)
Theorem environmental_impact_identities (r : PackagingData)
  (rows : list PackagingData) :
  Forall count_identities (r :: rows) ->
  exists m,
    calculate_environmental_impact (Table (r :: rows)) = Some m
    /\ impact_total_waste m
       = isub (impact_total_produced m) (impact_total_returned m)
    /\ impact_total_returned m
       = iadd (impact_total_reused m) (impact_total_recycled m)
    /\ impact_landfill_waste_avoided m
       = iadd (impact_total_reused m) (impact_total_recycled m)
    /\ (zsum (map total_produced (r :: rows)) <= int64_max ->
        impact_total_waste m
        = impact_total_produced m - impact_total_returned m
        /\ impact_total_returned m
           = impact_total_reused m + impact_total_recycled m
        /\ impact_landfill_waste_avoided m
           = impact_total_reused m + impact_total_recycled m
        /\ 0 <= impact_total_reused m /\ 0 <= impact_total_recycled m).
Proof.
  intros Hid. eexists. split; [reflexivity|].
  cbn [impact_total_waste impact_total_produced impact_total_returned
       impact_total_reused impact_total_recycled
       impact_landfill_waste_avoided].
  destruct (isum_identities (r :: rows) Hid) as (H1 & H2 & H3).
  split; [exact H1|]. split; [exact H2|]. split; [exact H2|].
  intros Hp. destruct (H3 Hp) as (H4 & H5 & H6 & H7).
  repeat split; try assumption; lia.
Qed.

Lemma environmental_impact_identities_witness :
  let rows := [glass_record 0 1000 800 560 240 200 zero zero] in
  exists m,
    calculate_environmental_impact (Table rows) = Some m
    /\ impact_total_waste m
       = isub (impact_total_produced m) (impact_total_returned m)
    /\ impact_total_returned m
       = iadd (impact_total_reused m) (impact_total_recycled m)
    /\ impact_landfill_waste_avoided m
       = iadd (impact_total_reused m) (impact_total_recycled m)
    /\ (zsum (map total_produced rows) <= int64_max ->
        impact_total_waste m
        = impact_total_produced m - impact_total_returned m
        /\ impact_total_returned m
           = impact_total_reused m + impact_total_recycled m
        /\ impact_landfill_waste_avoided m
           = impact_total_reused m + impact_total_recycled m
        /\ 0 <= impact_total_reused m /\ 0 <= impact_total_recycled m).
Proof.
  apply (environmental_impact_identities
           (glass_record 0 1000 800 560 240 200 zero zero) []).
  repeat constructor; simpl; lia.
Defined.
